(** * Pesa-Bridge: authorization, reconciliation and expiry of card charges

    A shallow embedding of the transaction core of the repository:
    - [src/models/Transaction.js], [src/models/User.js],
      [src/models/VirtualCard.js] (the three stored documents and their
      instance methods),
    - the M-Pesa gateway service (result-code mapper, timestamp),
    - [src/services/cardService.js] (card validation, fraud indicators),
    - [src/services/authorizationService.js] (authorize, callback
      handling, status query, currency conversion),
    - [src/routes/transactions.js] and [src/routes/cards.js] (the handlers
      that create ledger entries and cards), the webhook of the STK push,
    - [src/utils/cache.js].

    Conventions of the embedding.
    - A JavaScript [Number] is [Fin q] for an exact rational [q], or [NaN].
      [NaN] is kept because arithmetic on [undefined] produces it; the
      rounding of doubles is not represented, and neither are infinities
      (the only divisions are by a rate of the table or of a list length).
    - A string is the list of its characters.  The text the code handles
      is ASCII, for which [String.length] is JavaScript's [length].
    - A [Date] read from the clock is a record of the accessors the code
      calls on it; stored deadlines and stamps are the epoch milliseconds.
    - The three models are Mongoose models (package.json: mongoose 8).  A
      collection is the list of its documents in storage order.  A query
      is a list of conditions on paths; a path the schema does not declare
      is stored by no document (the schemas are strict) and is kept in the
      query as it is, which is what Mongoose 8 does unless [strictQuery]
      is set, and no source file sets it.  [findOne] is the first match;
      [save] replaces the document with the same id.
    - The services call the models the way another library is called.
      The argument of [findOne({ where: { ... } })] is, for Mongoose, a
      condition on a path named [where].  [findByPk] and [findAll] are
      members no Mongoose model has: calling them throws a TypeError.
    - A document that is being saved refuses a second [save()] with a
      ParallelSaveError.  A loaded document is held with the mark of a
      save that was started and not awaited; the write of such a save is
      applied when it is started.
    - The gateway, the hash, the cipher and the random source are inputs
      of an operation; the calls made to the gateway are returned as a
      trace.
    - Storage succeeds, except for the awaited writes of a call to the
      transaction collection, each of which may throw as the inputs of
      the call say. *)

From Stdlib Require Import ZArith QArith Qround Lqa Ascii.
From stdpp Require Import base option gmap strings list pretty.

Local Open Scope Z_scope.
Local Open Scope string_scope.

(** ** JavaScript values used by the code *)

Inductive Number : Type :=
| Fin (q : Q)
| NaN.

Definition num_add (a b : Number) : Number :=
  match a, b with
  | Fin x, Fin y => Fin (x + y)%Q
  | _, _ => NaN
  end.

Definition num_mul (a b : Number) : Number :=
  match a, b with
  | Fin x, Fin y => Fin (x * y)%Q
  | _, _ => NaN
  end.

(** [0 / 0] is [NaN]; a non-zero dividend over zero does not occur in the
    code (divisors are table rates, or a length whose dividend is then an
    empty sum). *)
Definition num_div (a b : Number) : Number :=
  match a, b with
  | Fin x, Fin y => if Qeq_bool y 0 then NaN else Fin (x / y)%Q
  | _, _ => NaN
  end.

(** [a > b] and [a <= b]: false as soon as one side is [NaN]. *)
Definition num_gt (a b : Number) : bool :=
  match a, b with
  | Fin x, Fin y => negb (Qle_bool x y)
  | _, _ => false
  end.

Definition num_le (a b : Number) : bool :=
  match a, b with
  | Fin x, Fin y => Qle_bool x y
  | _, _ => false
  end.

Definition num_sub (a b : Number) : Number :=
  match a, b with
  | Fin x, Fin y => Fin (x - y)%Q
  | _, _ => NaN
  end.

(** [a < b]: false as soon as one side is [NaN]. *)
Definition num_lt (a b : Number) : bool :=
  match a, b with
  | Fin x, Fin y => negb (Qle_bool y x)
  | _, _ => false
  end.

Definition of_Z (z : Z) : Number := Fin (inject_Z z).

Inductive jsval : Type :=
| JUndefined
| JString (s : string)
| JNumber (n : Number)
| JArray (l : list string)
| JBool (b : bool).

(** [v === k] for a numeric literal [k] of a [switch] or of [!==]. *)
Definition strict_eq_num (v : jsval) (k : Z) : bool :=
  match v with
  | JNumber (Fin q) => Qeq_bool q (inject_Z k)
  | _ => false
  end.

(** Truthiness, as [||] and [!] see it. *)
Definition truthy (v : jsval) : bool :=
  match v with
  | JUndefined => false
  | JString s => negb (String.eqb s EmptyString)
  | JNumber (Fin q) => negb (Qeq_bool q 0)
  | JNumber NaN => false
  | JArray _ => true
  | JBool b => b
  end.

Definition js_or (a b : jsval) : jsval := if truthy a then a else b.

(** [s.trim()], white space being the ASCII white space. *)
Definition is_space (c : ascii) : bool :=
  let n := nat_of_ascii c in
  (Nat.leb 9 n && Nat.leb n 13) || Nat.eqb n 32.

Fixpoint trimStart_chars (cs : list ascii) : list ascii :=
  match cs with
  | c :: r => if is_space c then trimStart_chars r else cs
  | [] => []
  end.

Definition trim (s : string) : string :=
  String.string_of_list_ascii
    (rev (trimStart_chars (rev (trimStart_chars (String.list_ascii_of_string s))))).

(** A [Date] object, by the accessors the code uses. [getMonth] is 0-based. *)
Record JsDate : Type := mkDate {
  getTime : Z;
  getFullYear : Z;
  getMonth : Z;
  getDate : Z
}.

(** [new Date(v).getTime()] for the values the code passes: the time of
    an epoch number is the number cut to whole milliseconds;
    [new Date(undefined)] is an invalid date, whose time is [NaN]. *)
Definition date_getTime (v : jsval) : Number :=
  match v with
  | JNumber (Fin q) => of_Z (Z.quot (Qnum q) (Zpos (Qden q)))
  | _ => NaN
  end.

(** A plain object used as a key/value bag. *)
Abbreviation bag := (gmap string jsval).

(** [{ ...a, ...b }]: the keys of [b] win. *)
Definition spread (a b : bag) : bag := b ∪ a.

(** How the evaluation of an expression or of a call ends: with a value,
    or with a thrown error, of which the code reads the [message] only. *)
Inductive completion (A : Type) : Type :=
| Normal (a : A)
| Thrown (message : string).

Arguments Normal {A} a.
Arguments Thrown {A} message.

(** ** Mongoose queries *)

Module Mongoose.

(** What a document stores at a path. *)
Inductive stored : Type :=
| Missing
| Text (s : string)
| Num (n : Number)
| ObjectId (n : nat)
| Time (ms : Z)
| Mixed (b : bag).

(** A schema path of type String or Number, which holds neither an array
    nor a boolean. *)
Definition of_jsval (v : jsval) : stored :=
  match v with
  | JUndefined => Missing
  | JString s => Text s
  | JNumber n => Num n
  | JArray _ | JBool _ => Missing
  end.

Definition of_text (s : option string) : stored :=
  match s with
  | Some s => Text s
  | None => Missing
  end.

Definition of_time (d : option Z) : stored :=
  match d with
  | Some ms => Time ms
  | None => Missing
  end.

(** What a query compares a path with: the values the queries of the code
    are built from, a scalar or an object of scalars. *)
Inductive scalar : Type :=
| Undefined
| String_ (s : string)
| Id (n : nat)
| Date (ms : Z).

Inductive operand : Type :=
| Value (v : scalar)
| Document (fields : list (string * scalar)).

Definition text (s : string) : operand := Value (String_ s).

Definition text_or_undefined (s : option string) : scalar :=
  match s with
  | Some s => String_ s
  | None => Undefined
  end.

(** [{ path: v }], [{ path: { $in: vs } }] and [{ path: { $lt: v } }]. *)
Inductive condition : Type :=
| Is (v : operand)
| OneOf (vs : list operand)
| Before (v : operand).

Definition query : Type := list (string * condition).

(** Equality of a stored value with an operand.  [undefined] is sent as
    [null], which a document that lacks the path matches.  An embedded
    document equals no scalar and no missing path; its comparison with a
    [Mixed] bag is left out ([false]): no query of the code names a path
    of that type. *)
Definition equals (s : stored) (v : operand) : bool :=
  match s, v with
  | Missing, Value Undefined => true
  | Text a, Value (String_ b) => String.eqb a b
  | ObjectId a, Value (Id b) => Nat.eqb a b
  | Time a, Value (Date b) => Z.eqb a b
  | _, _ => false
  end.

Definition holds (s : stored) (c : condition) : bool :=
  match c with
  | Is v => equals s v
  | OneOf vs => existsb (equals s) vs
  | Before (Value (Date d)) =>
      match s with
      | Time a => Z.ltb a d
      | _ => false
      end
  | Before _ => false
  end.

Section Queries.

Context {A : Type} (get : A -> string -> stored).

Definition matches (q : query) (d : A) : bool :=
  forallb (fun c => holds (get d (fst c)) (snd c)) q.

(** [Model.findOne(q)] and [Model.find(q)] on a collection. *)
Definition findOne (q : query) (docs : list A) : option A :=
  List.find (matches q) docs.

Definition find (q : query) (docs : list A) : list A :=
  List.filter (matches q) docs.

End Queries.

(** The message of the error a second [save()] of a document throws while
    a first one is in flight. *)
Definition ParallelSaveError (id : nat) : string :=
  "Can't save() the same doc multiple times in parallel. Document: " +:+ pretty id.

(** A loaded document, and whether a save of it was started and not
    awaited. *)
Record handle (A : Type) : Type := mkHandle {
  doc : A;
  saving : bool
}.

Arguments mkHandle {A} doc saving.
Arguments doc {A} h.
Arguments saving {A} h.

Definition loaded {A : Type} (d : A) : handle A := mkHandle d false.

End Mongoose.

(** ** models/Transaction.js *)

Module Transaction.

Inductive status : Type :=
| pending_authorization
| stk_push_sent
| awaiting_user_response
| approved
| declined
| failed
| expired
| cancelled.

(** The terminal states of the ledger state machine. *)
Definition terminal (s : status) : bool :=
  match s with
  | approved | declined | failed | expired | cancelled => true
  | pending_authorization | stk_push_sent | awaiting_user_response => false
  end.

(** [['stk_push_sent', 'awaiting_user_response'].includes(status)] *)
Definition awaiting_result (s : status) : bool :=
  match s with
  | stk_push_sent | awaiting_user_response => true
  | _ => false
  end.

Record t : Type := mk {
  id : nat;
  user_id : nat;
  card_id : nat;
  transaction_reference : string;
  amount : Number;
  currency : string;
  amount_kes : Number;
  merchant_name : string;
  merchant_id : jsval;
  merchant_category : jsval;
  status_of : status;
  mpesa_checkout_request_id : option string;
  mpesa_result_code : jsval;
  mpesa_result_desc : jsval;
  mpesa_transaction_id : jsval;
  authorization_code : jsval;
  decline_reason : jsval;
  decline_code : jsval;
  stk_push_sent_at : option Z;
  user_response_at : option Z;
  completed_at : option Z;
  timeout_at : option Z;
  metadata : bag;
  createdAt : Z
}.

(** The values of the [enum] of the path [status], as stored. *)
Definition status_name (s : status) : string :=
  match s with
  | pending_authorization => "pending_authorization"
  | stk_push_sent => "stk_push_sent"
  | awaiting_user_response => "awaiting_user_response"
  | approved => "approved"
  | declined => "declined"
  | failed => "failed"
  | expired => "expired"
  | cancelled => "cancelled"
  end.

(** What a document of the collection stores at a path.  The paths are
    those of the schema, [_id], and [createdAt], which [timestamps: true]
    maintains; a name that is no path of the schema is stored by no
    document. *)
Definition get (x : t) (path : string) : Mongoose.stored :=
  if String.eqb path "_id" then Mongoose.ObjectId (id x)
  else if String.eqb path "user_id" then Mongoose.ObjectId (user_id x)
  else if String.eqb path "card_id" then Mongoose.ObjectId (card_id x)
  else if String.eqb path "transaction_reference" then
    Mongoose.Text (transaction_reference x)
  else if String.eqb path "amount" then Mongoose.Num (amount x)
  else if String.eqb path "currency" then Mongoose.Text (currency x)
  else if String.eqb path "amount_kes" then Mongoose.Num (amount_kes x)
  else if String.eqb path "merchant_name" then Mongoose.Text (merchant_name x)
  else if String.eqb path "merchant_id" then Mongoose.of_jsval (merchant_id x)
  else if String.eqb path "merchant_category" then
    Mongoose.of_jsval (merchant_category x)
  else if String.eqb path "status" then Mongoose.Text (status_name (status_of x))
  else if String.eqb path "mpesa_checkout_request_id" then
    Mongoose.of_text (mpesa_checkout_request_id x)
  else if String.eqb path "mpesa_result_code" then
    Mongoose.of_jsval (mpesa_result_code x)
  else if String.eqb path "mpesa_result_desc" then
    Mongoose.of_jsval (mpesa_result_desc x)
  else if String.eqb path "mpesa_transaction_id" then
    Mongoose.of_jsval (mpesa_transaction_id x)
  else if String.eqb path "authorization_code" then
    Mongoose.of_jsval (authorization_code x)
  else if String.eqb path "decline_reason" then Mongoose.of_jsval (decline_reason x)
  else if String.eqb path "decline_code" then Mongoose.of_jsval (decline_code x)
  else if String.eqb path "stk_push_sent_at" then Mongoose.of_time (stk_push_sent_at x)
  else if String.eqb path "user_response_at" then Mongoose.of_time (user_response_at x)
  else if String.eqb path "completed_at" then Mongoose.of_time (completed_at x)
  else if String.eqb path "timeout_at" then Mongoose.of_time (timeout_at x)
  else if String.eqb path "metadata" then Mongoose.Mixed (metadata x)
  else if String.eqb path "createdAt" then Mongoose.Time (createdAt x)
  else Mongoose.Missing.

(** [transaction.created_at]: no path of the schema has that name (the
    time of creation is kept under [createdAt]); the property is
    [undefined] on every document. *)
Definition created_at (x : t) : jsval := JUndefined.

Definition with_status (s : status) (x : t) : t :=
  mk (id x) (user_id x) (card_id x) (transaction_reference x) (amount x)
     (currency x) (amount_kes x) (merchant_name x) (merchant_id x)
     (merchant_category x) s (mpesa_checkout_request_id x)
     (mpesa_result_code x) (mpesa_result_desc x) (mpesa_transaction_id x)
     (authorization_code x) (decline_reason x) (decline_code x)
     (stk_push_sent_at x) (user_response_at x) (completed_at x)
     (timeout_at x) (metadata x) (createdAt x).

Definition with_metadata (m : bag) (x : t) : t :=
  mk (id x) (user_id x) (card_id x) (transaction_reference x) (amount x)
     (currency x) (amount_kes x) (merchant_name x) (merchant_id x)
     (merchant_category x) (status_of x) (mpesa_checkout_request_id x)
     (mpesa_result_code x) (mpesa_result_desc x) (mpesa_transaction_id x)
     (authorization_code x) (decline_reason x) (decline_code x)
     (stk_push_sent_at x) (user_response_at x) (completed_at x)
     (timeout_at x) m (createdAt x).

Definition with_stk_push_sent_at (d : Z) (x : t) : t :=
  mk (id x) (user_id x) (card_id x) (transaction_reference x) (amount x)
     (currency x) (amount_kes x) (merchant_name x) (merchant_id x)
     (merchant_category x) (status_of x) (mpesa_checkout_request_id x)
     (mpesa_result_code x) (mpesa_result_desc x) (mpesa_transaction_id x)
     (authorization_code x) (decline_reason x) (decline_code x)
     (Some d) (user_response_at x) (completed_at x)
     (timeout_at x) (metadata x) (createdAt x).

Definition with_user_response_at (d : Z) (x : t) : t :=
  mk (id x) (user_id x) (card_id x) (transaction_reference x) (amount x)
     (currency x) (amount_kes x) (merchant_name x) (merchant_id x)
     (merchant_category x) (status_of x) (mpesa_checkout_request_id x)
     (mpesa_result_code x) (mpesa_result_desc x) (mpesa_transaction_id x)
     (authorization_code x) (decline_reason x) (decline_code x)
     (stk_push_sent_at x) (Some d) (completed_at x)
     (timeout_at x) (metadata x) (createdAt x).

Definition with_completed_at (d : Z) (x : t) : t :=
  mk (id x) (user_id x) (card_id x) (transaction_reference x) (amount x)
     (currency x) (amount_kes x) (merchant_name x) (merchant_id x)
     (merchant_category x) (status_of x) (mpesa_checkout_request_id x)
     (mpesa_result_code x) (mpesa_result_desc x) (mpesa_transaction_id x)
     (authorization_code x) (decline_reason x) (decline_code x)
     (stk_push_sent_at x) (user_response_at x) (Some d)
     (timeout_at x) (metadata x) (createdAt x).

Definition with_timeout_at (d : Z) (x : t) : t :=
  mk (id x) (user_id x) (card_id x) (transaction_reference x) (amount x)
     (currency x) (amount_kes x) (merchant_name x) (merchant_id x)
     (merchant_category x) (status_of x) (mpesa_checkout_request_id x)
     (mpesa_result_code x) (mpesa_result_desc x) (mpesa_transaction_id x)
     (authorization_code x) (decline_reason x) (decline_code x)
     (stk_push_sent_at x) (user_response_at x) (completed_at x)
     (Some d) (metadata x) (createdAt x).

(** [isExpired]: false without a deadline, else [new Date() > timeout_at]. *)
Definition isExpired (now : JsDate) (x : t) : bool :=
  match timeout_at x with
  | None => false
  | Some d => Z.ltb d (getTime now)
  end.

(** [setTimeout(minutes)]: [new Date(Date.now() + minutes * 60 * 1000)],
    a time value being cut to whole milliseconds.  This is the in-memory
    assignment; the caller saves. *)
Definition setTimeout (now : JsDate) (minutes : Q) (x : t) : t :=
  let ms := (inject_Z (getTime now) + minutes * 60 * 1000)%Q in
  with_timeout_at (Z.quot (Qnum ms) (Zpos (Qden ms))) x.

(** [updateStatus(status, metadata)]: the in-memory part; the caller
    persists the result ([this.save()]). *)
Definition updateStatus (now : JsDate) (s : status) (md : bag) (x : t) : t :=
  let x1 := with_metadata (spread (metadata x) md) (with_status s x) in
  match s with
  | stk_push_sent => with_stk_push_sent_at (getTime now) x1
  | awaiting_user_response => with_user_response_at (getTime now) x1
  | approved | declined | failed => with_completed_at (getTime now) x1
  | _ => x1
  end.

(** The filter of [findPendingTransactions]:
    [status $in [stk_push_sent, awaiting_user_response]] and
    [timeout_at $lt now]; a document without the field does not match. *)
Definition pending_and_timed_out (now : JsDate) (x : t) : bool :=
  awaiting_result (status_of x) &&
  match timeout_at x with
  | Some d => Z.ltb d (getTime now)
  | None => false
  end.

Definition findPendingTransactions (now : JsDate) (txs : list t) : list t :=
  List.filter (pending_and_timed_out now) txs.

Definition findByReference (ref : string) (txs : list t) : option t :=
  List.find (fun x => String.eqb (transaction_reference x) ref) txs.

(** [findByCheckoutRequestId(id)]: [findOne({ mpesa_checkout_request_id:
    id })].  For [undefined] the query asks for [null], which the first
    document without a correlation id matches. *)
Definition findByCheckoutRequestId (cid : option string) (txs : list t) : option t :=
  List.find (fun x => match mpesa_checkout_request_id x, cid with
                      | Some c', Some c => String.eqb c' c
                      | None, None => true
                      | _, _ => false
                      end) txs.

(** [Transaction.findAll(...)]: a Mongoose model has no member of that
    name, and the call throws a TypeError. *)
Definition findAll (txs : list t) : completion (list t) :=
  Thrown "require(...).findAll is not a function".

(** A String path with [maxlength]. *)
Definition within (n : nat) (v : jsval) : bool :=
  match v with
  | JString s => Nat.leb (String.length s) n
  | _ => true
  end.

(** The validation a [save()] runs on the paths of the document: a
    Number path holds a number (the cast refuses [NaN]), a required
    String path is not empty, and no String is longer than its
    [maxlength]. *)
Definition valid (x : t) : bool :=
  negb (String.eqb (transaction_reference x) EmptyString) &&
  match amount x with Fin _ => true | NaN => false end &&
  negb (String.eqb (currency x) EmptyString) &&
  Nat.leb (String.length (currency x)) 3 &&
  match amount_kes x with Fin _ => true | NaN => false end &&
  negb (String.eqb (merchant_name x) EmptyString) &&
  Nat.leb (String.length (merchant_name x)) 255 &&
  within 100 (merchant_id x) &&
  within 100 (merchant_category x) &&
  match mpesa_result_code x with JNumber NaN => false | _ => true end &&
  within 255 (mpesa_result_desc x) &&
  within 10 (authorization_code x) &&
  within 255 (decline_reason x) &&
  within 10 (decline_code x).

(** [save()] of an existing document. *)
Fixpoint save (x : t) (txs : list t) : list t :=
  match txs with
  | [] => []
  | y :: r => if Nat.eqb (id y) (id x) then x :: r else y :: save x r
  end.

End Transaction.

(** ** models/User.js *)

Module User.

Record t : Type := mk {
  id : nat;
  mpesa_phone : string;
  is_active : bool;
  daily_transaction_limit : Number;
  single_transaction_limit : Number;
  total_daily_spent : Number;
  reset_daily_spent_at : JsDate
}.

Inductive check : Type :=
| allowed
| rejected (reason : string).

Definition is_allowed (c : check) : bool :=
  match c with
  | allowed => true
  | rejected _ => false
  end.

(** [resetDailySpent]: the in-memory assignment (its [save] is the
    caller's concern in this embedding). *)
Definition resetDailySpent (now : JsDate) (u : t) : t :=
  mk (id u) (mpesa_phone u) (is_active u) (daily_transaction_limit u)
     (single_transaction_limit u) (of_Z 0) now.

(** The test that opens [canMakeTransaction]: the stored reset date is on
    another calendar day than today. *)
Definition new_day (now : JsDate) (u : t) : bool :=
  let lastReset := reset_daily_spent_at u in
  negb (Z.eqb (getDate now) (getDate lastReset)) ||
  negb (Z.eqb (getMonth now) (getMonth lastReset)) ||
  negb (Z.eqb (getFullYear now) (getFullYear lastReset)).

Definition lazy_reset (now : JsDate) (u : t) : t :=
  if new_day now u then resetDailySpent now u else u.

(** [canMakeTransaction(amount)]: returns the document as the call leaves
    it, and the verdict. *)
Definition canMakeTransaction (now : JsDate) (amt : Number) (u : t) : t * check :=
  let u1 := lazy_reset now u in
  if num_gt amt (single_transaction_limit u1) then
    (u1, rejected "Single transaction limit exceeded")
  else if num_gt (num_add (total_daily_spent u1) amt) (daily_transaction_limit u1) then
    (u1, rejected "Daily transaction limit exceeded")
  else (u1, allowed).

(** [user.total_daily_spent += amount] *)
Definition add_daily_spent (amt : Number) (u : t) : t :=
  mk (id u) (mpesa_phone u) (is_active u) (daily_transaction_limit u)
     (single_transaction_limit u) (num_add (total_daily_spent u) amt)
     (reset_daily_spent_at u).

(** [User.findByPk(id)]: a Mongoose model has no member of that name, and
    the call throws a TypeError. *)
Definition findByPk (k : nat) (us : list t) : completion (option t) :=
  Thrown "User.findByPk is not a function".

Fixpoint save (x : t) (us : list t) : list t :=
  match us with
  | [] => []
  | y :: r => if Nat.eqb (id y) (id x) then x :: r else y :: save x r
  end.

End User.

(** ** models/VirtualCard.js *)

Module VirtualCard.

Inductive status : Type :=
| active
| suspended
| expired
| cancelled.

Definition is_active_status (s : status) : bool :=
  match s with
  | active => true
  | _ => false
  end.

Record t : Type := mk {
  id : nat;
  user_id : nat;
  card_number : string;
  card_number_hash : string;
  expiry_month : Z;
  expiry_year : Z;
  cvv : string;
  status_of : status;
  daily_limit : Number;
  monthly_limit : Number;
  total_spent_today : Number;
  total_spent_month : Number;
  last_used : option Z
}.

(** [isExpired]: by calendar year, then by calendar month (1-based). *)
Definition isExpired (now : JsDate) (c : t) : bool :=
  let currentYear := getFullYear now in
  let currentMonth := getMonth now + 1 in
  if Z.ltb (expiry_year c) currentYear then true
  else if Z.eqb (expiry_year c) currentYear && Z.ltb (expiry_month c) currentMonth then true
  else false.

Definition canMakeTransaction (now : JsDate) (amt : Number) (c : t) : User.check :=
  if negb (is_active_status (status_of c)) then User.rejected "Card is not active"
  else if isExpired now c then User.rejected "Card has expired"
  else if num_gt (num_add (total_spent_today c) amt) (daily_limit c) then
    User.rejected "Daily limit exceeded"
  else if num_gt (num_add (total_spent_month c) amt) (monthly_limit c) then
    User.rejected "Monthly limit exceeded"
  else User.allowed.

(** [updateSpending(amount)]: the in-memory part. *)
Definition updateSpending (now : JsDate) (amt : Number) (c : t) : t :=
  mk (id c) (user_id c) (card_number c) (card_number_hash c) (expiry_month c)
     (expiry_year c) (cvv c) (status_of c) (daily_limit c) (monthly_limit c)
     (num_add (total_spent_today c) amt) (num_add (total_spent_month c) amt)
     (Some (getTime now)).

(** The values of the [enum] of the path [status], as stored. *)
Definition status_name (s : status) : string :=
  match s with
  | active => "active"
  | suspended => "suspended"
  | expired => "expired"
  | cancelled => "cancelled"
  end.

(** What a document of the collection stores at a path, for the paths the
    record carries; a name that is no path of the schema is stored by no
    document. *)
Definition get (c : t) (path : string) : Mongoose.stored :=
  if String.eqb path "_id" then Mongoose.ObjectId (id c)
  else if String.eqb path "user_id" then Mongoose.ObjectId (user_id c)
  else if String.eqb path "card_number" then Mongoose.Text (card_number c)
  else if String.eqb path "card_number_hash" then Mongoose.Text (card_number_hash c)
  else if String.eqb path "expiry_month" then Mongoose.Num (of_Z (expiry_month c))
  else if String.eqb path "expiry_year" then Mongoose.Num (of_Z (expiry_year c))
  else if String.eqb path "cvv" then Mongoose.Text (cvv c)
  else if String.eqb path "status" then Mongoose.Text (status_name (status_of c))
  else if String.eqb path "daily_limit" then Mongoose.Num (daily_limit c)
  else if String.eqb path "monthly_limit" then Mongoose.Num (monthly_limit c)
  else if String.eqb path "total_spent_today" then Mongoose.Num (total_spent_today c)
  else if String.eqb path "total_spent_month" then Mongoose.Num (total_spent_month c)
  else if String.eqb path "last_used" then Mongoose.of_time (last_used c)
  else Mongoose.Missing.

(** [VirtualCard.findByPk(id)]: a Mongoose model has no member of that
    name, and the call throws a TypeError. *)
Definition findByPk (k : nat) (cs : list t) : completion (option t) :=
  Thrown "VirtualCard.findByPk is not a function".

Fixpoint save (x : t) (cs : list t) : list t :=
  match cs with
  | [] => []
  | y :: r => if Nat.eqb (id y) (id x) then x :: r else y :: save x r
  end.

End VirtualCard.

(** ** The M-Pesa gateway service: result-code mapper *)

Module MpesaService.

Record CardResponse : Type := mkResponse {
  approved : bool;
  authorizationCode : jsval;
  responseCode : jsval;
  responseDescription : jsval;
  declineCode : jsval;
  declineReason : jsval
}.

Definition decline (code reason : jsval) : CardResponse :=
  mkResponse false JUndefined JUndefined JUndefined code reason.

(** [mapMpesaResultToCardResponse(resultCode, resultDescription)].
    [authCode] is the draw of [generateAuthorizationCode]. *)
Definition mapMpesaResultToCardResponse
  (authCode : string) (resultCode resultDescription : jsval) : CardResponse :=
  if strict_eq_num resultCode 0 then
    mkResponse true (JString authCode) (JString "00") (JString "Approved")
               JUndefined JUndefined
  else if strict_eq_num resultCode 1 then
    decline (JString "51") (JString "Insufficient funds")
  else if strict_eq_num resultCode 2 then
    decline (JString "05") (JString "Declined")
  else if strict_eq_num resultCode 1032 then
    decline (JString "13") (JString "Invalid amount")
  else if strict_eq_num resultCode 1037 then
    decline (JString "12") (JString "Invalid transaction")
  else if strict_eq_num resultCode 2001 then
    decline (JString "14") (JString "Invalid card number")
  else if strict_eq_num resultCode 2002 then
    decline (JString "15") (JString "Invalid card")
  else
    decline (JString "96") (js_or resultDescription (JString "System malfunction")).

(** The codes that have a [case] of their own. *)
Definition known_codes : list Z := [0; 1; 2; 1032; 1037; 2001; 2002].

Definition is_mapped (resultCode : jsval) : bool :=
  existsb (strict_eq_num resultCode) known_codes.

(** What the gateway answers to a push initiation and to a status query. *)
Record StkResult : Type := mkStk {
  stk_success : bool;
  checkoutRequestID : jsval;
  merchantRequestID : jsval;
  stk_error : jsval
}.

Record QueryResult : Type := mkQuery {
  query_success : bool;
  resultCode : jsval;
  resultDescription : jsval
}.

(** The port: a deterministic stand-in for the provider. *)
Record Gateway : Type := mkGateway {
  initiateSTKPush : string -> Number -> string -> string -> StkResult;
  querySTKPushStatus : option string -> QueryResult
}.

Inductive call : Type :=
| CallInitiate (phone : string) (amt : Number) (reference description : string)
| CallQuery (checkoutRequestID : option string).

End MpesaService.

(** ** The stored state and the inputs of an operation *)

(** What the code caches under the key of a transaction: the summary
    [{ id, status, checkout_request_id }], or the whole document. *)
Inductive CacheEntry : Type :=
| CachedSummary (id : nat) (status : Transaction.status) (checkout_request_id : jsval)
| CachedDocument (x : Transaction.t).

Record State : Type := mkState {
  transactions : list Transaction.t;
  cards : list VirtualCard.t;
  users : list User.t;
  cache : gmap string CacheEntry
}.

Definition set_transactions (txs : list Transaction.t) (st : State) : State :=
  mkState txs (cards st) (users st) (cache st).

Definition set_cards (cs : list VirtualCard.t) (st : State) : State :=
  mkState (transactions st) cs (users st) (cache st).

Definition set_users (us : list User.t) (st : State) : State :=
  mkState (transactions st) (cards st) us (cache st).

Definition set_cache (c : gmap string CacheEntry) (st : State) : State :=
  mkState (transactions st) (cards st) (users st) c.

(** [`transaction:${transaction.id}`] *)
Definition cache_key (tid : nat) : string := "transaction:" +:+ pretty tid.

(** What an operation reads from outside the stored state.
    [random_ref n] is the [n]-th draw of
    [Math.random().toString(36).substring(2, 8).toUpperCase()] in the call;
    [write_fails n] tells whether the [n]-th awaited write of the call to
    the transaction collection throws (0 is the first). *)
Record Env : Type := mkEnv {
  now : JsDate;
  gateway : MpesaService.Gateway;
  sha256 : string -> string;
  decryptData : string -> string;
  random_ref : nat -> string;
  random_auth : string;
  write_fails : nat -> bool
}.

(** ** The run of an [async] function *)

(** What the body of a function has done so far: the stored state as it
    left it, the calls it made to the gateway, the number of references
    it drew and the number of awaited writes it made to the transaction
    collection. *)
Record Run : Type := mkRun {
  store : State;
  calls : list MpesaService.call;
  drawn : nat;
  written : nat
}.

Definition start (st : State) : Run := mkRun st [] 0 0.

Definition Op (A : Type) : Type := Run -> completion A * Run.

Definition ret {A : Type} (a : A) : Op A := fun r => (Normal a, r).

Definition throw {A : Type} (message : string) : Op A := fun r => (Thrown message, r).

(** Sequencing: a thrown error skips what follows, up to the [catch]. *)
Definition bind {A B : Type} (m : Op A) (k : A -> Op B) : Op B :=
  fun r =>
    match m r with
    | (Normal a, r1) => k a r1
    | (Thrown message, r1) => (Thrown message, r1)
    end.

#[global] Instance Op_ret : MRet Op := @ret.

#[global] Instance Op_bind : MBind Op := fun A B k m => bind m k.

(** [await] of a call whose completion is known. *)
Definition await {A : Type} (c : completion A) : Op A := fun r => (c, r).

Definition read : Op State := fun r => (Normal (store r), r).

Definition write (f : State -> State) : Op unit :=
  fun r => (Normal tt, mkRun (f (store r)) (calls r) (drawn r) (written r)).

Definition called (c : MpesaService.call) : Op unit :=
  fun r => (Normal tt, mkRun (store r) (calls r ++ [c]) (drawn r) (written r)).

Definition when (b : bool) (m : Op unit) : Op unit := if b then m else ret tt.

(** ** Writes of documents *)

Module Documents.

(** The id [Transaction.create] gives the new document: one that no stored
    document has. *)
Definition fresh_id (txs : list Transaction.t) : nat :=
  S (list_max (map Transaction.id txs)).

(** An awaited write to the transaction collection, which throws when the
    inputs of the call say so. *)
Definition storage (env : Env) : Op unit :=
  fun r =>
    let r1 := mkRun (store r) (calls r) (drawn r) (S (written r)) in
    if write_fails env (written r) then (Thrown "storage failure", r1)
    else (Normal tt, r1).

(** [await Transaction.create(x)]: the document is validated, the unique
    index on the reference refuses a reference that is stored already,
    and the document is inserted. *)
Definition create (env : Env) (x : Transaction.t) : Op (Mongoose.handle Transaction.t) :=
  if negb (Transaction.valid x) then throw "Transaction validation failed"
  else
    storage env;;
    st ← read;
    if existsb (fun y => String.eqb (Transaction.transaction_reference y)
                           (Transaction.transaction_reference x)) (transactions st)
    then throw "E11000 duplicate key error"
    else
      write (fun st => set_transactions (transactions st ++ [x]) st);;
      ret (Mongoose.loaded x).

(** [transaction.save()], not awaited: the write is started, and the
    document is being saved from then on.  The paths the code assigns to
    a loaded transaction (status, stamps, deadline, metadata) pass their
    validation. *)
Definition startSave (h : Mongoose.handle Transaction.t)
  : Op (Mongoose.handle Transaction.t) :=
  if Mongoose.saving h then ret h
  else
    write (fun st => set_transactions (Transaction.save (Mongoose.doc h) (transactions st)) st);;
    ret (Mongoose.mkHandle (Mongoose.doc h) true).

(** [await transaction.save()] *)
Definition save (env : Env) (h : Mongoose.handle Transaction.t) : Op unit :=
  if Mongoose.saving h then
    throw (Mongoose.ParallelSaveError (Transaction.id (Mongoose.doc h)))
  else
    storage env;;
    write (fun st => set_transactions (Transaction.save (Mongoose.doc h) (transactions st)) st).

(** [await transaction.updateStatus(status, metadata)]: the assignments,
    then [await this.save()]. *)
Definition updateStatus (env : Env) (s : Transaction.status) (md : bag)
  (h : Mongoose.handle Transaction.t) : Op (Mongoose.handle Transaction.t) :=
  let h1 :=
    Mongoose.mkHandle (Transaction.updateStatus (now env) s md (Mongoose.doc h))
      (Mongoose.saving h) in
  save env h1;;
  ret h1.

(** A save of a card validates the counters [updateSpending] assigned:
    Number paths, which refuse [NaN]. *)
Definition valid_card (c : VirtualCard.t) : bool :=
  match VirtualCard.total_spent_today c, VirtualCard.total_spent_month c with
  | Fin _, Fin _ => true
  | _, _ => false
  end.

(** [card.save()], not awaited. *)
Definition startSaveCard (h : Mongoose.handle VirtualCard.t)
  : Op (Mongoose.handle VirtualCard.t) :=
  if Mongoose.saving h then ret h
  else
    when (valid_card (Mongoose.doc h))
          (write (fun st => set_cards (VirtualCard.save (Mongoose.doc h) (cards st)) st));;
    ret (Mongoose.mkHandle (Mongoose.doc h) true).

(** [await card.save()] *)
Definition saveCard (h : Mongoose.handle VirtualCard.t) : Op unit :=
  if Mongoose.saving h then
    throw (Mongoose.ParallelSaveError (VirtualCard.id (Mongoose.doc h)))
  else if negb (valid_card (Mongoose.doc h)) then throw "VirtualCard validation failed"
  else write (fun st => set_cards (VirtualCard.save (Mongoose.doc h) (cards st)) st).

(** [await user.save()]; the counter is a Number path. *)
Definition saveUser (h : Mongoose.handle User.t) : Op unit :=
  if Mongoose.saving h then
    throw (Mongoose.ParallelSaveError (User.id (Mongoose.doc h)))
  else
    match User.total_daily_spent (Mongoose.doc h) with
    | NaN => throw "User validation failed"
    | Fin _ => write (fun st => set_users (User.save (Mongoose.doc h) (users st)) st)
    end.

End Documents.

(** ** services/cardService.js *)

Module CardService.

(** [validateCard(cardNumber, cvv, expiryMonth, expiryYear)]:
    the reason of the refusal, or the stored card.  The card is asked for
    with [findOne({ where: { card_number_hash: cardHash, status: 'active'
    } })]. *)
Definition validateCard (env : Env) (cs : list VirtualCard.t)
  (cardNumber cvv : string) (expiryMonth expiryYear : Z) : string + VirtualCard.t :=
  if negb (Nat.eqb (String.length cardNumber) 16) then inl "Invalid card number length"
  else if negb (Nat.eqb (String.length cvv) 3) then inl "Invalid CVV"
  else if Z.eqb expiryMonth 0 || Z.ltb expiryMonth 1 || Z.ltb 12 expiryMonth then
    inl "Invalid expiry month"
  else if Z.eqb expiryYear 0 || Z.ltb expiryYear (getFullYear (now env)) then
    inl "Card expired"
  else
    let cardHash := sha256 env cardNumber in
    match Mongoose.findOne VirtualCard.get
            [("where",
              Mongoose.Is
                (Mongoose.Document
                   [("card_number_hash", Mongoose.String_ cardHash);
                    ("status", Mongoose.String_ "active")]))]
            cs with
    | None => inl "Card not found or inactive"
    | Some card =>
        if negb (String.eqb (decryptData env (VirtualCard.cvv card)) cvv) then inl "Invalid CVV"
        else if VirtualCard.isExpired (now env) card then inl "Card expired"
        else inr card
    end.

(** The body of [checkFraudPatterns] past its query, on the documents the
    query returned: the indicators, in the order they are pushed. *)
Definition fraudIndicators (env : Env) (recentTransactions : list Transaction.t)
  (amt : Number) : list string :=
  let rapid :=
    match recentTransactions with
    | lastTransaction :: _ =>
        let timeDiff :=
          num_sub (of_Z (getTime (now env)))
            (date_getTime (Transaction.created_at lastTransaction)) in
        if num_lt timeDiff (of_Z 30000)
        then ["Rapid transaction detected"] else []
    | [] => []
    end in
  let avgAmount :=
    num_div (fold_left (fun sum x => num_add sum (Transaction.amount x))
               recentTransactions (of_Z 0))
            (of_Z (Z.of_nat (length recentTransactions))) in
  let unusual :=
    if num_gt amt (num_mul avgAmount (of_Z 5))
    then ["Unusual transaction amount"] else [] in
  let failedAttempts :=
    length (List.filter (fun x => match Transaction.status_of x with
                                  | Transaction.declined | Transaction.failed => true
                                  | _ => false
                                  end) recentTransactions) in
  let repeated :=
    if Nat.leb 3 failedAttempts then ["Multiple failed attempts"] else [] in
  rapid ++ unusual ++ repeated.

(** [checkFraudPatterns(cardId, { amount })]: the indicators ([suspicious]
    is their list being non-empty).  The query is a call of
    [Transaction.findAll]; when it throws, the [catch] answers
    [{ suspicious: false, indicators: [] }]. *)
Definition checkFraudPatterns (env : Env) (txs : list Transaction.t)
  (cardId : nat) (amt : Number) : list string :=
  match Transaction.findAll txs with
  | Normal recentTransactions => fraudIndicators env recentTransactions amt
  | Thrown _ => []
  end.

End CardService.

(** ** services/authorizationService.js *)

Module AuthorizationService.

(** The table of [convertCurrency]: units of KES per unit of the currency. *)
Definition rates : gmap string Number :=
  <["USD" := of_Z 150]> (<["EUR" := of_Z 165]> (<["GBP" := of_Z 190]> ∅)).

(** [rates[c]] inside an arithmetic expression: a missing key is
    [undefined], which arithmetic turns into [NaN]. *)
Definition rate (c : string) : Number :=
  match rates !! c with
  | Some r => r
  | None => NaN
  end.

(** [convertCurrency(amount, fromCurrency, toCurrency)].  No expression of
    its [try] block throws, so its [catch] (return the amount) is never
    entered. *)
Definition convertCurrency (amt : Number) (fromCurrency toCurrency : string) : Number :=
  if String.eqb fromCurrency toCurrency then amt
  else if String.eqb fromCurrency "KES" then num_div amt (rate toCurrency)
  else if String.eqb toCurrency "KES" then num_mul amt (rate fromCurrency)
  else num_div (num_mul amt (rate fromCurrency)) (rate toCurrency).

(** [generateTransactionReference()], at the [n]-th draw of the call. *)
Definition generateTransactionReference (env : Env) (n : nat) : string :=
  "TXN" +:+ pretty (getTime (now env)) +:+ random_ref env n.

(** The next draw of the run. *)
Definition nextReference (env : Env) : Op string :=
  fun r =>
    (Normal (generateTransactionReference env (drawn r)),
     mkRun (store r) (calls r) (S (drawn r)) (written r)).

Record Request : Type := mkRequest {
  card_number : string;
  cvv : string;
  expiry_month : Z;
  expiry_year : Z;
  amount : Number;
  currency : option string;
  merchant_name : string;
  merchant_id : jsval;
  merchant_category : jsval;
  ip_address : jsval;
  user_agent : jsval
}.

(** The object returned by [authorizeTransaction]. *)
Record Outcome : Type := mkOutcome {
  approved : bool;
  pending : bool;
  decline_code : jsval;
  decline_reason : jsval;
  transaction_reference : string;
  checkout_request_id : jsval
}.

Definition decline (code reason reference : string) : Outcome :=
  mkOutcome false false (JString code) (JString reason) reference JUndefined.

(** The id [Transaction.create] gives the new document. *)
Definition fresh_id (txs : list Transaction.t) : nat := Documents.fresh_id txs.

(** The [catch] of [authorizeTransaction], entered after [n] references
    have been drawn. *)
Definition system_error (env : Env) (n : nat) : Outcome :=
  decline "96" "System error" (generateTransactionReference env n).

(** A decline built with a newly drawn reference. *)
Definition declined (env : Env) (code reason : string) : Op Outcome :=
  reference ← nextReference env;
  ret (decline code reason reference).

(** The [try] block of [authorizeTransaction]. *)
Definition authorizing (env : Env) (req : Request) : Op Outcome :=
  let currency := default "KES" (currency req) in
  st ← read;
  match CardService.validateCard env (cards st) (card_number req) (cvv req)
          (expiry_month req) (expiry_year req) with
  | inl reason => declined env "14" reason
  | inr card =>
  let userId := VirtualCard.user_id card in
  found ← await (User.findByPk userId (users st));
  match found with
  | None => declined env "15" "Cardholder account inactive"
  | Some user =>
  if negb (User.is_active user) then declined env "15" "Cardholder account inactive"
  else
  let amountKES :=
    if String.eqb currency "KES" then amount req
    else convertCurrency (amount req) currency "KES" in
  let '(user1, userLimitCheck) := User.canMakeTransaction (now env) amountKES user in
  (* resetDailySpent() starts a save of the reset it made *)
  when (User.new_day (now env) user)
        (write (fun st => set_users (User.save user1 (users st)) st));;
  match userLimitCheck with
  | User.rejected reason => declined env "51" reason
  | User.allowed =>
  match VirtualCard.canMakeTransaction (now env) amountKES card with
  | User.rejected reason => declined env "51" reason
  | User.allowed =>
  st1 ← read;
  let indicators :=
    CardService.checkFraudPatterns env (transactions st1) (VirtualCard.id card) amountKES in
  reference ← nextReference env;
  created ←
    Documents.create env
      (Transaction.mk (fresh_id (transactions st1)) userId (VirtualCard.id card) reference
         (amount req) currency amountKES (trim (merchant_name req)) (merchant_id req)
         (merchant_category req) Transaction.pending_authorization None
         JUndefined JUndefined JUndefined JUndefined JUndefined JUndefined
         None None None None
         (<["fraud_indicators" := JArray indicators]>
            (<["ip_address" := ip_address req]> (<["user_agent" := user_agent req]> ∅)))
         (getTime (now env)));
  (* transaction.setTimeout(0.5) sets the deadline and starts a save *)
  transaction ←
    Documents.startSave
      (Mongoose.mkHandle (Transaction.setTimeout (now env) (1 # 2) (Mongoose.doc created))
         (Mongoose.saving created));
  Documents.save env transaction;;
  let description := "Payment to " +:+ merchant_name req in
  let stkResult :=
    MpesaService.initiateSTKPush (gateway env) (User.mpesa_phone user1) amountKES
      (Transaction.transaction_reference (Mongoose.doc transaction)) description in
  called (MpesaService.CallInitiate (User.mpesa_phone user1) amountKES
                (Transaction.transaction_reference (Mongoose.doc transaction)) description);;
  if negb (MpesaService.stk_success stkResult) then
    transaction ←
      Documents.updateStatus env Transaction.failed
        (<["error" := MpesaService.stk_error stkResult]> ∅) transaction;
    ret (decline "96" "Payment service unavailable"
           (Transaction.transaction_reference (Mongoose.doc transaction)))
  else
    transaction ←
      Documents.updateStatus env Transaction.stk_push_sent
        (<["mpesa_checkout_request_id" := MpesaService.checkoutRequestID stkResult]>
           (<["mpesa_merchant_request_id" := MpesaService.merchantRequestID stkResult]> ∅))
        transaction;
    let tx := Mongoose.doc transaction in
    write (fun st =>
                 set_cache (<[cache_key (Transaction.id tx) :=
                                CachedSummary (Transaction.id tx) (Transaction.status_of tx)
                                  (MpesaService.checkoutRequestID stkResult)]> (cache st)) st);;
    ret (mkOutcome false true JUndefined JUndefined (Transaction.transaction_reference tx)
           (MpesaService.checkoutRequestID stkResult))
  end end end end.

(** [authorizeTransaction(transactionData)]: the [try] block, and the
    [catch], which answers a system error with a newly drawn reference. *)
Definition authorizeTransaction (env : Env) (req : Request) (st : State)
  : State * Outcome * list MpesaService.call :=
  let '(completed, r) := authorizing env req (start st) in
  match completed with
  | Normal outcome => (store r, outcome, calls r)
  | Thrown _ => (store r, system_error env (drawn r), calls r)
  end.

(** The payload of a callback, as [handleSTKCallback] destructures it. *)
Record CallbackData : Type := mkCallback {
  checkoutRequestID : option string;
  resultCode : jsval;
  resultDescription : jsval;
  mpesaReceiptNumber : jsval
}.

(** The objects returned by [handleSTKCallback]:
    [{ success: false, error }] or
    [{ success: true, transaction_id, approved, authorization_code,
       decline_code, decline_reason }]. *)
Inductive CallbackResult : Type :=
| CallbackError (error : string)
| CallbackHandled (transaction_id : nat) (response : MpesaService.CardResponse).

(** The [try] block of [handleSTKCallback].  The entry is asked for with
    [findOne({ where: { mpesa_checkout_request_id: checkoutRequestID } })]. *)
Definition handling (env : Env) (cb : CallbackData) : Op CallbackResult :=
  st ← read;
  match Mongoose.findOne Transaction.get
          [("where",
            Mongoose.Is
              (Mongoose.Document
                 [("mpesa_checkout_request_id",
                   Mongoose.text_or_undefined (checkoutRequestID cb))]))]
          (transactions st) with
  | None => ret (CallbackError "Transaction not found")
  | Some found =>
  let transaction := Mongoose.loaded found in
  card ← await (VirtualCard.findByPk (Transaction.card_id found) (cards st));
  user ← await (User.findByPk (Transaction.user_id found) (users st));
  match card, user with
  | Some card, Some user =>
      let cardResponse :=
        MpesaService.mapMpesaResultToCardResponse (random_auth env)
          (resultCode cb) (resultDescription cb) in
      (if MpesaService.approved cardResponse then
             transaction ←
               Documents.updateStatus env Transaction.approved
                 (<["mpesa_result_code" := resultCode cb]>
                    (<["mpesa_result_desc" := resultDescription cb]>
                       (<["mpesa_transaction_id" := mpesaReceiptNumber cb]>
                          (<["authorization_code" :=
                               MpesaService.authorizationCode cardResponse]> ∅))))
                 transaction;
             (* card.updateSpending(...) is not awaited: it starts a save *)
             card ←
               Documents.startSaveCard
                 (Mongoose.loaded
                    (VirtualCard.updateSpending (now env)
                       (Transaction.amount_kes (Mongoose.doc transaction)) card));
             Documents.saveCard card;;
             Documents.saveUser
               (Mongoose.loaded
                  (User.add_daily_spent (Transaction.amount_kes (Mongoose.doc transaction))
                     user))
           else
             transaction ←
               Documents.updateStatus env Transaction.declined
                 (<["mpesa_result_code" := resultCode cb]>
                    (<["mpesa_result_desc" := resultDescription cb]>
                       (<["decline_reason" := MpesaService.declineReason cardResponse]>
                          (<["decline_code" := MpesaService.declineCode cardResponse]> ∅))))
                 transaction;
             ret tt);;
      write (fun st => set_cache (delete (cache_key (Transaction.id found)) (cache st)) st);;
      ret (CallbackHandled (Transaction.id found) cardResponse)
  | _, _ => ret (CallbackError "Card or user not found")
  end
  end.

(** [handleSTKCallback(callbackData)]: the [try] block, and the [catch],
    which answers [{ success: false, error: error.message }]. *)
Definition handleSTKCallback (env : Env) (cb : CallbackData) (st : State)
  : State * CallbackResult :=
  let '(completed, r) := handling env cb (start st) in
  match completed with
  | Normal result => (store r, result)
  | Thrown message => (store r, CallbackError message)
  end.

(** The objects returned by [queryTransactionStatus]:
    [{ success: false, error }],
    [{ success: true, status: 'expired', message: 'Transaction expired' }], or
    the report built from the document the query loaded. *)
Inductive StatusResult : Type :=
| StatusError (error : string)
| StatusExpired
| StatusReport (status : Transaction.status) (reference : string) (amt : Number)
    (cur merchant : string) (created : jsval) (completed : option Z).

Definition report (x : Transaction.t) : StatusResult :=
  StatusReport (Transaction.status_of x) (Transaction.transaction_reference x)
    (Transaction.amount x) (Transaction.currency x) (Transaction.merchant_name x)
    (Transaction.created_at x) (Transaction.completed_at x).

(** [mpesaStatus.success && mpesaStatus.resultCode !== 1032] *)
Definition has_result (q : MpesaService.QueryResult) : bool :=
  MpesaService.query_success q && negb (strict_eq_num (MpesaService.resultCode q) 1032).

(** [await this.handleSTKCallback(...)], whose answer is dropped. *)
Definition reconcile (env : Env) (cb : CallbackData) : Op unit :=
  fun r =>
    (Normal tt,
     mkRun (fst (handleSTKCallback env cb (store r))) (calls r) (drawn r) (written r)).

(** The [try] block of [queryTransactionStatus].  The entry is asked for
    with [findOne({ where: { transaction_reference: transactionReference }
    })]. *)
Definition querying (env : Env) (transactionReference : string) : Op StatusResult :=
  st ← read;
  match Mongoose.findOne Transaction.get
          [("where",
            Mongoose.Is
              (Mongoose.Document
                 [("transaction_reference", Mongoose.String_ transactionReference)]))]
          (transactions st) with
  | None => ret (StatusError "Transaction not found")
  | Some found =>
      if Transaction.awaiting_result (Transaction.status_of found) then
        if Transaction.isExpired (now env) found then
          transaction ←
            Documents.updateStatus env Transaction.expired ∅ (Mongoose.loaded found);
          ret StatusExpired
        else
          let cid := Transaction.mpesa_checkout_request_id found in
          called (MpesaService.CallQuery cid);;
          let mpesaStatus := MpesaService.querySTKPushStatus (gateway env) cid in
          when (has_result mpesaStatus)
                (reconcile env
                   (mkCallback cid (MpesaService.resultCode mpesaStatus)
                      (MpesaService.resultDescription mpesaStatus) JUndefined));;
          (* the report reads the document loaded above, not the one the
             handler loaded and saved *)
          ret (report found)
      else ret (report found)
  end.

(** [queryTransactionStatus(transactionReference)]: the [try] block, and
    the [catch], which answers [{ success: false, error: error.message }]. *)
Definition queryTransactionStatus (env : Env) (transactionReference : string) (st : State)
  : State * StatusResult * list MpesaService.call :=
  let '(completed, r) := querying env transactionReference (start st) in
  match completed with
  | Normal result => (store r, result, calls r)
  | Thrown message => (store r, StatusError message, calls r)
  end.

End AuthorizationService.

(** ** The expiry sweep *)

Module ExpirySweeper.

(** Modelled from the spec: the recurring scan that drives
    [findPendingTransactions] is not among the sources; no file calls the
    finder.  Following section 4.7, the sweep takes every entry the finder
    selects and transitions it to [expired] with the transition operation,
    entry by entry. *)
Definition sweepEntry (now : JsDate) (x : Transaction.t) : Transaction.t :=
  if Transaction.pending_and_timed_out now x
  then Transaction.updateStatus now Transaction.expired ∅ x
  else x.

Definition sweep (now : JsDate) (txs : list Transaction.t) : list Transaction.t :=
  map (sweepEntry now) txs.

End ExpirySweeper.

(** ** The limit evaluation of a charge *)

(** The verdict of lines 41-72 of [authorizeTransaction]: the cardholder
    is active, the cardholder's limits allow the amount and the card's
    limits allow it. *)
Definition limit_evaluation (now : JsDate) (user : User.t) (card : VirtualCard.t)
  (amt : Number) : bool :=
  User.is_active user &&
  User.is_allowed (snd (User.canMakeTransaction now amt user)) &&
  User.is_allowed (VirtualCard.canMakeTransaction now amt card).

(** The running daily total a limit check of the cardholder compares: the
    stored counter, after the reset the check makes on a new calendar day. *)
Definition daily_spent_at (now : JsDate) (user : User.t) : Number :=
  User.total_daily_spent (User.lazy_reset now user).

(** Some limit is exceeded by the amount. *)
Definition over_limit (now : JsDate) (user : User.t) (card : VirtualCard.t)
  (amt : Number) : bool :=
  num_gt amt (User.single_transaction_limit user) ||
  num_gt (num_add (daily_spent_at now user) amt) (User.daily_transaction_limit user) ||
  num_gt (num_add (VirtualCard.total_spent_today card) amt) (VirtualCard.daily_limit card) ||
  num_gt (num_add (VirtualCard.total_spent_month card) amt) (VirtualCard.monthly_limit card).

(** Every limit leaves room for the amount. *)
Definition within_limits (now : JsDate) (user : User.t) (card : VirtualCard.t)
  (amt : Number) : bool :=
  num_le amt (User.single_transaction_limit user) &&
  num_le (num_add (daily_spent_at now user) amt) (User.daily_transaction_limit user) &&
  num_le (num_add (VirtualCard.total_spent_today card) amt) (VirtualCard.daily_limit card) &&
  num_le (num_add (VirtualCard.total_spent_month card) amt) (VirtualCard.monthly_limit card).

(** ** Sample data *)

Module Sample.

Definition day1 : JsDate := mkDate 1700000000000 2023 10 14.
Definition day2 : JsDate := mkDate 1700086400000 2023 10 15.

Definition holder : User.t :=
  User.mk 1 "254700000001" true (of_Z 70000) (of_Z 70000) (of_Z 0) day1.

Definition card : VirtualCard.t :=
  VirtualCard.mk 1 1 "enc:4000010000000002" "hash:4000010000000002" 12 2030 "enc:731"
    VirtualCard.active (of_Z 70000) (of_Z 1000000) (of_Z 0) (of_Z 0) None.

(** A ledger entry of 1000 KES of [holder] on [card], created at [day1]. *)
Definition entry (i : nat) (reference : string) (s : Transaction.status)
  (checkout : option string) (deadline : option Z) : Transaction.t :=
  Transaction.mk i 1 1 reference (of_Z 1000) "KES" (of_Z 1000) "Duka Moja"
    JUndefined JUndefined s checkout
    JUndefined JUndefined JUndefined JUndefined JUndefined JUndefined
    None None None deadline ∅ 1700000000000.

(** A provider that accepts every push and reports every push as paid. *)
Definition accepting : MpesaService.Gateway :=
  MpesaService.mkGateway
    (fun _ _ _ _ => MpesaService.mkStk true (JString "ws_CO_1") (JString "mr_1") JUndefined)
    (fun _ => MpesaService.mkQuery true (JNumber (of_Z 0)) (JString "Paid")).

(** Stand-ins for the hash and the cipher: a prefix added and removed. *)
Definition env_at (d : JsDate) (g : MpesaService.Gateway) (faults : nat -> bool) : Env :=
  mkEnv d g (fun s => "hash:" +:+ s) (fun s => String.substring 4 (String.length s - 4) s)
    (fun n => match n with O => "A1B2C3" | _ => "X9Y8Z7" end) "Q7W8E9" faults.

Definition no_fault : nat -> bool := fun _ => false.

(** The holder and the card after one approved charge of 1000 KES. *)
Definition holder_spent : User.t :=
  User.mk 1 "254700000001" true (of_Z 70000) (of_Z 70000) (of_Z 1000) day1.

Definition card_spent : VirtualCard.t :=
  VirtualCard.mk 1 1 "enc:4000010000000002" "hash:4000010000000002" 12 2030 "enc:731"
    VirtualCard.active (of_Z 70000) (of_Z 1000000) (of_Z 1000) (of_Z 1000)
    (Some 1700000010000).

Definition approved_entry : Transaction.t :=
  entry 1 "TXN1700000000000A1B2C3" Transaction.approved (Some "ws_CO_1")
    (Some 1700000030000).

(** The stored state once that charge has been approved. *)
Definition state_approved : State :=
  mkState [approved_entry] [card_spent] [holder_spent] ∅.

(** A charge of [amt] KES presented with the sample card. *)
Definition charge (amt : Z) : AuthorizationService.Request :=
  AuthorizationService.mkRequest "4000010000000002" "731" 12 2030 (of_Z amt) None
    "Duka Moja" (JString "M-001") (JString "grocery") JUndefined JUndefined.

(** The store before any charge. *)
Definition state_empty : State := mkState [] [card] [holder] ∅.

Definition paid : AuthorizationService.CallbackData :=
  AuthorizationService.mkCallback (Some "ws_CO_1") (JNumber (of_Z 0))
    (JString "The service request is processed successfully.") (JString "RCPT0001").

(** The entry of 1000 KES that [POST /api/transactions] stores for the
    sample card at [day1], and the store that holds it. *)
Definition created_entry : Transaction.t :=
  Transaction.mk 1 1 1 "TXN_1700000000000_k3j9x2m1q" (of_Z 1000) "KES" (of_Z 1000)
    "Duka Moja" (JString "M-001") JUndefined Transaction.pending_authorization None
    JUndefined JUndefined JUndefined JUndefined JUndefined JUndefined
    None None None None
    (<["createdBy" := JString "api"]>
       (<["timestamp" := JString "2023-11-14T22:13:20.000Z"]> ∅))
    1700000000000.

Definition state_created : State := mkState [created_entry] [card] [holder] ∅.

End Sample.

(** ** The amount a charge is settled in *)

(** The amount in KES that [authorizeTransaction] computes for a request. *)
Definition settlement_amount (req : AuthorizationService.Request) : Number :=
  let currency := default "KES" (AuthorizationService.currency req) in
  if String.eqb currency "KES" then AuthorizationService.amount req
  else AuthorizationService.convertCurrency (AuthorizationService.amount req) currency "KES".

(** ** models/VirtualCard.js: generation of card numbers, CVVs and expiry dates *)

Module VirtualCardStatics.

(** The numbers of these functions are integers, or [NaN] when a character
    that is not a digit has been parsed: [None] stands for [NaN]. *)
Definition to_string (n : option Z) : string :=
  match n with
  | Some z => pretty z
  | None => "NaN"
  end.

(** [parseInt(c)] for a single character [c]. *)
Definition parseIntChar (c : ascii) : option Z :=
  let n := nat_of_ascii c in
  if Nat.leb 48 n && Nat.leb n 57 then Some (Z.of_nat (n - 48)) else None.

Definition is_digit (c : ascii) : bool :=
  match parseIntChar c with
  | Some _ => true
  | None => false
  end.

Definition all_digits (s : string) : bool :=
  forallb is_digit (String.list_ascii_of_string s).

(** The body of the loop of [calculateLuhnCheckDigit] and [isValidLuhn]:
    the digit at the current position, doubled (and reduced by 9 when
    above 9) when [isEven]. *)
Definition luhn_digit (isEven : bool) (c : ascii) : option Z :=
  match parseIntChar c with
  | None => None
  | Some digit =>
      if isEven then
        let digit := digit * 2 in
        if Z.ltb 9 digit then Some (digit - 9) else Some digit
      else Some digit
  end.

(** [sum += digit], [NaN] being absorbing. *)
Definition add_nan (sum digit : option Z) : option Z :=
  match sum, digit with
  | Some s, Some d => Some (s + d)
  | _, _ => None
  end.

(** The loop, over the characters from the rightmost to the leftmost. *)
Fixpoint luhn_loop (cs : list ascii) (isEven : bool) (sum : option Z) : option Z :=
  match cs with
  | [] => sum
  | c :: r => luhn_loop r (negb isEven) (add_nan sum (luhn_digit isEven c))
  end.

Definition luhn_sum (number : string) : option Z :=
  luhn_loop (rev (String.list_ascii_of_string number)) false (Some 0).

(** The sum the same loop gives to [number] when a character follows it:
    the rightmost digit of [number] is then the first one doubled. *)
Definition luhn_sum_doubled (number : string) : option Z :=
  luhn_loop (rev (String.list_ascii_of_string number)) true (Some 0).

(** [calculateLuhnCheckDigit(number)]: [(10 - (sum % 10)) % 10]. *)
Definition calculateLuhnCheckDigit (number : string) : option Z :=
  match luhn_sum number with
  | Some sum => Some (Z.rem (10 - Z.rem sum 10) 10)
  | None => None
  end.

(** [isValidLuhn(cardNumber)]: [sum % 10 === 0]. *)
Definition isValidLuhn (cardNumber : string) : bool :=
  match luhn_sum cardNumber with
  | Some sum => Z.eqb (Z.rem sum 10) 0
  | None => false
  end.

(** [isSequential(str)]: every character is the digit after the one before. *)
Fixpoint isSequential_chars (cs : list ascii) : bool :=
  match cs with
  | current :: ((next :: _) as r) =>
      match parseIntChar current, parseIntChar next with
      | Some c, Some n => if Z.eqb n (c + 1) then isSequential_chars r else false
      | _, _ => false
      end
  | _ => true
  end.

Definition isSequential (str : string) : bool :=
  isSequential_chars (String.list_ascii_of_string str).

(** [str.split('').every(digit => digit === str[0])] *)
Definition all_same (str : string) : bool :=
  match String.list_ascii_of_string str with
  | [] => true
  | first :: _ => forallb (Ascii.eqb first) (String.list_ascii_of_string str)
  end.

(** [s.padStart(targetLength, c)] for a one-character pad. *)
Fixpoint repeat_char (n : nat) (c : ascii) : string :=
  match n with
  | O => EmptyString
  | S k => String c (repeat_char k c)
  end.

Definition padStart (targetLength : nat) (c : ascii) (s : string) : string :=
  repeat_char (targetLength - String.length s) c +:+ s.

(** [Math.floor(100 + Math.random() * 900)], [r] being the draw. *)
Definition cvv_draw (r : Q) : Z := Qfloor (100 + r * 900).

Definition cvv_rejected (cvv : Z) : bool :=
  all_same (pretty cvv) || isSequential (pretty cvv).

(** The values between 100 and 999 with three equal digits or three
    digits in ascending sequence. *)
Definition rejected_cvvs : list Z :=
  [111; 222; 333; 444; 555; 666; 777; 888; 999; 123; 234; 345; 456; 567; 678; 789].

(** [generateCvv()]: the [do ... while] loop, which draws until a value is
    kept; [random k] is the [k]-th draw of [Math.random()], and the loop is
    cut after [fuel] draws ([None]). *)
Fixpoint generateCvv_from (fuel : nat) (random : nat -> Q) (k : nat) : option string :=
  match fuel with
  | O => None
  | S f =>
      let cvv := cvv_draw (random k) in
      if cvv_rejected cvv then generateCvv_from f random (S k)
      else Some (padStart 3 "0"%char (pretty cvv))
  end.

Definition generateCvv (fuel : nat) (random : nat -> Q) : option string :=
  generateCvv_from fuel random 0.

(** The fifteen digits of attempt [attempt]: the BIN and nine draws,
    each appended as [Math.floor(Math.random() * 10)]. *)
Definition candidate (random : nat -> Q) (attempt : nat) : string :=
  fold_left (fun cardNumber i =>
               cardNumber +:+ pretty (Qfloor (random (9 * attempt + i)%nat * 10)))
            (seq 0 9) "400001".

(** The number attempt [attempt] submits to the two tests of the loop. *)
Definition finalCardNumber (random : nat -> Q) (attempt : nat) : string :=
  candidate random attempt +:+ to_string (calculateLuhnCheckDigit (candidate random attempt)).

(** The tests of the loop: the number passes [isValidLuhn] and no stored
    card has its hash. *)
Definition kept (sha256 : string -> string) (cs : list VirtualCard.t) (number : string)
  : bool :=
  isValidLuhn number &&
  negb (existsb (fun c => String.eqb (VirtualCard.card_number_hash c) (sha256 number)) cs).

(** [generateCardNumber()]: at most 100 attempts; [remaining] attempts are
    left when [attempts] have been made.  [None] is the [throw] that ends
    the function when none is left. *)
Fixpoint generateCardNumber_from (sha256 : string -> string) (cs : list VirtualCard.t)
  (random : nat -> Q) (remaining attempts : nat) : option string :=
  match remaining with
  | O => None
  | S r =>
      let cardNumber := candidate random attempts in
      let checkDigit := calculateLuhnCheckDigit cardNumber in
      let finalCardNumber := cardNumber +:+ to_string checkDigit in
      if negb (isValidLuhn finalCardNumber) then
        generateCardNumber_from sha256 cs random r (S attempts)
      else if existsb (fun c => String.eqb (VirtualCard.card_number_hash c)
                                  (sha256 finalCardNumber)) cs then
        generateCardNumber_from sha256 cs random r (S attempts)
      else Some finalCardNumber
  end.

Definition generateCardNumber (sha256 : string -> string) (cs : list VirtualCard.t)
  (random : nat -> Q) : option string :=
  generateCardNumber_from sha256 cs random 100 0.

(** [generateExpiryDate()]: [(month, year)]; the year is drawn first. *)
Definition generateExpiryDate (now : JsDate) (r_year r_month : Q) : Z * Z :=
  let year := getFullYear now + 2 + Qfloor (r_year * 3) in
  let month := Qfloor (r_month * 12) + 1 in
  (month, year).

End VirtualCardStatics.

(** ** services/cardService.js: masking of a card number *)

Module CardDisplay.

(** [maskCardNumber(cardNumber)]: a number shorter than four characters
    (the empty one included) is returned as it is; otherwise
    ['*'.repeat(length - 4) + cardNumber.slice(-4)]. *)
Definition maskCardNumber (cardNumber : string) : string :=
  if Nat.ltb (String.length cardNumber) 4 then cardNumber
  else
    VirtualCardStatics.repeat_char (String.length cardNumber - 4) "*"%char +:+
    String.substring (String.length cardNumber - 4) 4 cardNumber.

End CardDisplay.

(** ** utils/cache.js *)

Module SimpleCache.

(** The two maps of the object: the values, and for each key the pending
    timer that will delete it, given by its delay in milliseconds.  Every
    timer the code creates is stored in [timers] until it is cleared or
    fires, so the pending timers are the entries of [timers]. *)
Record t : Type := mk {
  cache : gmap string string;
  timers : gmap string Z
}.

Definition empty : t := mk ∅ ∅.

Definition get (key : string) (c : t) : option string := cache c !! key.

Definition has (key : string) (c : t) : bool :=
  match cache c !! key with
  | Some _ => true
  | None => false
  end.

(** [del(key)]: clears and forgets the timer of the key, if any, and
    returns what [Map.delete] returns. *)
Definition del (key : string) (c : t) : t * bool :=
  (mk (delete key (cache c)) (delete key (timers c)), has key c).

Definition clear (c : t) : t := empty.

(** The delay [setTimeout(callback, after)] gives a timer: [after] when it
    is between 1 and 2^31 - 1 milliseconds, and 1 millisecond otherwise. *)
Definition timer_delay (after : Z) : Z :=
  if Z.leb 1 after && Z.leb after 2147483647 then after else 1.

(** [setWithTTL(key, value, ttlSeconds)]: the timer of the key, if any, is
    cleared and replaced. *)
Definition setWithTTL (key value : string) (ttlSeconds : Z) (c : t) : t :=
  mk (<[key := value]> (cache c)) (<[key := timer_delay (ttlSeconds * 1000)]> (timers c)).

Definition setex (key : string) (ttlSeconds : Z) (value : string) (c : t) : t :=
  setWithTTL key value ttlSeconds c.

(** The callback of the timer of [key], when it fires. *)
Definition expire (key : string) (c : t) : t :=
  mk (delete key (cache c)) (delete key (timers c)).

(** What the object can go through: calls, and the firing of pending timers. *)
Inductive step : t -> t -> Prop :=
| StepSet key value ttl c : step c (setWithTTL key value ttl c)
| StepDel key c : step c (fst (del key c))
| StepClear c : step c (clear c)
| StepExpire key delay c : timers c !! key = Some delay -> step c (expire key c).

Inductive reachable : t -> Prop :=
| ReachEmpty : reachable empty
| ReachStep c c' : reachable c -> step c c' -> reachable c'.

End SimpleCache.

(** ** The M-Pesa gateway service: the timestamp of a request *)

Module MpesaTimestamp.

(** The accessors [generateTimestamp] calls on [new Date()]. *)
Record LocalTime : Type := mkLocalTime {
  fullYear : Z;
  month : Z;
  date : Z;
  hours : Z;
  minutes : Z;
  seconds : Z
}.

(** [String(n).padStart(2, '0')] *)
Definition pad2 (n : Z) : string :=
  VirtualCardStatics.padStart 2 "0"%char (pretty n).

(** [generateTimestamp()]: year, month (1-based), day, hour, minute and
    second, the last five padded to two characters. *)
Definition generateTimestamp (now : LocalTime) : string :=
  pretty (fullYear now) +:+ pad2 (month now + 1) +:+ pad2 (date now) +:+
  pad2 (hours now) +:+ pad2 (minutes now) +:+ pad2 (seconds now).

End MpesaTimestamp.

(** ** routes/cards.js: creation of a card *)

Module CardRoutes.

(** What the creation of a card draws and is given.  The draws of
    [Math.random()] are given per generator: [number_draws] to
    [generateCardNumber], [cvv_draws] to [generateCvv] (which is cut after
    [cvv_fuel] draws), then one draw for the year and one for the month of
    the expiry date.  [encryptData] is the cipher of the pre-save hook. *)
Record Inputs : Type := mkInputs {
  number_draws : nat -> Q;
  cvv_draws : nat -> Q;
  cvv_fuel : nat;
  year_draw : Q;
  month_draw : Q;
  encryptData : string -> string;
  user_id : nat;
  dailyLimit : Number;
  monthlyLimit : Number
}.

(** The card the handler of [POST /api/cards] stores, once the request has
    passed its checks: generated number, CVV and expiry date, status
    [active], counters at their default 0; the pre-save hook stores the
    hash of the number and the encrypted number and CVV.  [None] when the
    generation of the number throws (no attempt left) or that of the CVV
    is cut.  Returned with the card and the new collection: the number and
    the CVV in clear, as the cardholder will present them. *)
Definition createCard (env : Env) (inp : Inputs) (cs : list VirtualCard.t)
  : option (list VirtualCard.t * VirtualCard.t * string * string) :=
  match VirtualCardStatics.generateCardNumber (sha256 env) cs (number_draws inp) with
  | None => None
  | Some cardNumber =>
      match VirtualCardStatics.generateCvv (cvv_fuel inp) (cvv_draws inp) with
      | None => None
      | Some cvv =>
          let '(month, year) :=
            VirtualCardStatics.generateExpiryDate (now env) (year_draw inp) (month_draw inp) in
          let card :=
            VirtualCard.mk (S (list_max (map VirtualCard.id cs))) (user_id inp)
              (encryptData inp cardNumber) (sha256 env cardNumber) month year
              (encryptData inp cvv) VirtualCard.active (dailyLimit inp) (monthlyLimit inp)
              (of_Z 0) (of_Z 0) None in
          Some ((cs ++ [card])%list, card, cardNumber, cvv)
      end
  end.

End CardRoutes.

(** ** routes/transactions.js: creation of a ledger entry *)

Module TransactionRoutes.

(** What the handler of [POST /api/transactions] reads: the id of the
    authenticated cardholder, the fields of the body, the draw of
    [Math.random().toString(36).substr(2, 9)], [parseFloat] as the engine
    evaluates it, and the ISO text of the clock. *)
Record Inputs : Type := mkInputs {
  userId : nat;
  cardId : option nat;
  amount : jsval;
  merchantName : string;
  merchantId : jsval;
  currency : option string;
  random : string;
  parseFloat : jsval -> Number;
  isoTime : string
}.

(** The answer: the status of the response and, on success, the entry. *)
Inductive Response : Type :=
| Created (x : Transaction.t)
| Refused (status : Z) (error : string).

(** [`TXN_${Date.now()}_${Math.random().toString(36).substr(2, 9)}`] *)
Definition transactionReference (now : JsDate) (random : string) : string :=
  "TXN_" +:+ pretty (getTime now) +:+ "_" +:+ random.

(** The entry the handler builds for a card. *)
Definition entry (env : Env) (inp : Inputs) (cardId : nat) (st : State) : Transaction.t :=
  Transaction.mk (Documents.fresh_id (transactions st)) (userId inp) cardId
    (transactionReference (now env) (random inp))
    (parseFloat inp (amount inp)) (default "KES" (currency inp))
    (parseFloat inp (amount inp)) (trim (merchantName inp)) (merchantId inp)
    JUndefined Transaction.pending_authorization None
    JUndefined JUndefined JUndefined JUndefined JUndefined JUndefined
    None None None None
    (<["createdBy" := JString "api"]> (<["timestamp" := JString (isoTime inp)]> ∅))
    (getTime (now env)).

(** The handler: the required fields, the card of the cardholder, its
    status, then the creation; whatever is thrown is answered 500. *)
Definition createTransaction (env : Env) (inp : Inputs) (st : State) : State * Response :=
  match cardId inp with
  | None => (st, Refused 400 "Missing required fields: cardId, amount, merchantName")
  | Some card_id =>
      if negb (truthy (amount inp)) || String.eqb (merchantName inp) EmptyString then
        (st, Refused 400 "Missing required fields: cardId, amount, merchantName")
      else
        match Mongoose.findOne VirtualCard.get
                [("_id", Mongoose.Is (Mongoose.Value (Mongoose.Id card_id)));
                 ("user_id", Mongoose.Is (Mongoose.Value (Mongoose.Id (userId inp))))]
                (cards st) with
        | None => (st, Refused 404 "Card not found")
        | Some card =>
            if negb (VirtualCard.is_active_status (VirtualCard.status_of card)) then
              (st, Refused 400 "Card is not active")
            else
              let '(completed, r) :=
                Documents.create env (entry env inp card_id st) (start st) in
              match completed with
              | Normal transaction => (store r, Created (Mongoose.doc transaction))
              | Thrown _ => (store r, Refused 500 "Failed to create transaction")
              end
        end
  end.

End TransactionRoutes.

(** ** The webhook of the STK push *)

Module Webhooks.

(** [Body.stkCallback] of the request, with the values of the items of
    [CallbackMetadata] the handler looks for. *)
Record StkCallback : Type := mkStkCallback {
  MerchantRequestID : option string;
  CheckoutRequestID : option string;
  ResultCode : jsval;
  ResultDesc : jsval;
  MpesaReceiptNumber : jsval;
  Amount : jsval;
  PhoneNumber : jsval
}.

(** The handler of [POST /api/webhooks/mpesa], past the checks of the
    body: the status of the response.  The entry is asked for with
    [findOne({ mpesaRequestId: MerchantRequestID, status: 'pending' })].
    The assignments to [mpesaReceiptNumber] and [processedAt], which are
    no paths of the schema, are not stored, and [transaction.type], which
    is none either, is [undefined]. *)
Definition stkPushCallback (env : Env) (cb : StkCallback) (st : State) : State * Z :=
  match Mongoose.findOne Transaction.get
          [("mpesaRequestId",
            Mongoose.Is (Mongoose.Value (Mongoose.text_or_undefined (MerchantRequestID cb))));
           ("status", Mongoose.Is (Mongoose.text "pending"))]
          (transactions st) with
  | None => (st, 404)
  | Some transaction =>
      if strict_eq_num (ResultCode cb) 0 then
        let saved :=
          Transaction.with_metadata
            (spread (Transaction.metadata transaction)
               (<["mpesaAmount" := Amount cb]>
                  (<["mpesaPhoneNumber" := PhoneNumber cb]>
                     (<["callbackReceived" := JBool true]> ∅))))
            (Transaction.with_status Transaction.approved transaction) in
        let st1 := set_transactions (Transaction.save saved (transactions st)) st in
        (set_cache (<[cache_key (Transaction.id saved) := CachedDocument saved]> (cache st1)) st1,
         200)
      else
        let saved :=
          Transaction.with_metadata
            (spread (Transaction.metadata transaction)
               (<["failureReason" := ResultDesc cb]>
                  (<["callbackReceived" := JBool true]> ∅)))
            (Transaction.with_status Transaction.declined transaction) in
        (set_transactions (Transaction.save saved (transactions st)) st, 200)
  end.

End Webhooks.

(** ** The ledger, as the code builds it *)

Module Ledger.

(** An entry as the handler of [POST /api/transactions] stores it: in
    [pending_authorization], without deadline and without correlation id,
    under a reference of the shape the handler builds. *)
Definition as_created (x : Transaction.t) : Prop :=
  Transaction.status_of x = Transaction.pending_authorization /\
  Transaction.timeout_at x = None /\
  Transaction.mpesa_checkout_request_id x = None /\
  exists (now : JsDate) (random : string),
    Transaction.transaction_reference x = TransactionRoutes.transactionReference now random.

(** One operation on the stored state.  Entries are written by the handler
    of [POST /api/transactions], by the three functions of the
    authorization service and by the webhook of the STK push; the rest of
    the code (cards, accounts, seeding) leaves the transaction collection
    as it is. *)
Inductive step : State -> State -> Prop :=
| Create env inp st :
    step st (fst (TransactionRoutes.createTransaction env inp st))
| Authorize env req st :
    step st (fst (fst (AuthorizationService.authorizeTransaction env req st)))
| Callback env cb st :
    step st (fst (AuthorizationService.handleSTKCallback env cb st))
| Query env ref st :
    step st (fst (fst (AuthorizationService.queryTransactionStatus env ref st)))
| Webhook env cb st :
    step st (fst (Webhooks.stkPushCallback env cb st))
| Elsewhere st st' :
    transactions st' = transactions st -> step st st'.

(** The states the code reaches from an empty ledger. *)
Inductive reachable : State -> Prop :=
| Empty st : transactions st = [] -> reachable st
| Step st st' : reachable st -> step st st' -> reachable st'.

End Ledger.

(** ** Sample requests *)

Module SampleRequests.

(** The body that makes [POST /api/transactions] store
    [Sample.created_entry]; [parseFloat] is given on numbers. *)
Definition creation : TransactionRoutes.Inputs :=
  TransactionRoutes.mkInputs 1 (Some 1%nat) (JNumber (of_Z 1000)) "Duka Moja" (JString "M-001")
    None "k3j9x2m1q"
    (fun v => match v with JNumber n => n | _ => NaN end)
    "2023-11-14T22:13:20.000Z".

End SampleRequests.

(** * Properties *)

(** ** Arithmetic and lookup facts shared by the proofs *)

Lemma num_le_not_gt (a b : Number) : num_le a b = true -> num_gt a b = false.
Proof.
  destruct a as [x|], b as [y|]; simpl; try discriminate.
  intros ->. reflexivity.
Qed.

Lemma strict_eq_num_known (v : jsval) (k : Z) :
  In k MpesaService.known_codes -> strict_eq_num v k = true ->
  MpesaService.is_mapped v = true.
Proof.
  intros Hk Hv. unfold MpesaService.is_mapped.
  apply existsb_exists. exists k. split; assumption.
Qed.

Lemma is_mapped_false (v : jsval) :
  MpesaService.is_mapped v = false ->
  Forall (fun k => strict_eq_num v k = false) MpesaService.known_codes.
Proof.
  intros H. apply List.Forall_forall. intros k Hk.
  destruct (strict_eq_num v k) eqn:E; [|reflexivity].
  rewrite (strict_eq_num_known v k Hk E) in H. discriminate.
Qed.

(** ** The result-code mapper *)

(** C7. The mapper is a total function of the result code: whatever the
    code (a number, a string, [undefined]) and the description, it yields
    a decision, which is either the approval of code 0 or a refusal that
    carries a decline code; and a code without a case of its own yields
    the refusal "96", whose reason is the description when there is one
    and "System malfunction" otherwise. *)
Theorem mapMpesaResultToCardResponse_total (auth : string) (code desc : jsval) :
  let r := MpesaService.mapMpesaResultToCardResponse auth code desc in
  (MpesaService.approved r = true /\ strict_eq_num code 0 = true /\
   MpesaService.authorizationCode r = JString auth \/
   MpesaService.approved r = false /\
   exists c, MpesaService.declineCode r = JString c) /\
  (MpesaService.is_mapped code = false ->
   MpesaService.approved r = false /\
   MpesaService.declineCode r = JString "96" /\
   MpesaService.declineReason r = js_or desc (JString "System malfunction")).
Proof.
  cbv zeta. split.
  - unfold MpesaService.mapMpesaResultToCardResponse.
    repeat match goal with
           | |- context [if ?b then _ else _] => destruct b eqn:?
           end; simpl; eauto 6.
  - intros Hm. apply is_mapped_false in Hm.
    unfold MpesaService.known_codes in Hm.
    repeat match goal with
           | H : Forall _ (_ :: _) |- _ => apply Forall_cons_iff in H; destruct H as [? H]
           end.
    unfold MpesaService.mapMpesaResultToCardResponse.
    repeat match goal with
           | H : strict_eq_num code _ = false |- _ => rewrite H; clear H
           end.
    simpl. auto.
Qed.

Lemma mapMpesaResultToCardResponse_total_witness :
  MpesaService.is_mapped (JNumber (of_Z 17)) = false /\
  MpesaService.declineCode
    (MpesaService.mapMpesaResultToCardResponse "A1B2C3" (JNumber (of_Z 17)) JUndefined)
  = JString "96".
Proof.
  split; [reflexivity|].
  apply (mapMpesaResultToCardResponse_total "A1B2C3" (JNumber (of_Z 17)) JUndefined).
  reflexivity.
Defined.

(** ** Currency conversion *)

(** C9. Conversion into KES at the failing input and around it: the same
    currency is returned unchanged and a currency of the table is
    multiplied by its rate, but a currency without a rate yields [NaN],
    not the amount: multiplying by the missing rate does not throw, so the
    fallback of the [catch] is not taken. *)
Theorem convertCurrency_missing_rate (amt : Number) (cur : string) :
  AuthorizationService.convertCurrency amt "KES" "KES" = amt /\
  AuthorizationService.convertCurrency amt "USD" "KES" = num_mul amt (of_Z 150) /\
  AuthorizationService.convertCurrency amt "EUR" "KES" = num_mul amt (of_Z 165) /\
  AuthorizationService.convertCurrency amt "GBP" "KES" = num_mul amt (of_Z 190) /\
  (cur <> "KES" -> AuthorizationService.rates !! cur = None ->
   AuthorizationService.convertCurrency amt cur "KES" = NaN).
Proof.
  repeat split; try reflexivity.
  intros Hne Hnone. unfold AuthorizationService.convertCurrency.
  destruct (String.eqb_spec cur "KES") as [->|_]; [contradiction|].
  simpl. unfold AuthorizationService.rate. rewrite Hnone.
  destruct amt; reflexivity.
Qed.

Lemma convertCurrency_missing_rate_witness :
  AuthorizationService.convertCurrency (of_Z 100) "JPY" "KES" = NaN.
Proof.
  apply (convertCurrency_missing_rate (of_Z 100) "JPY"); [discriminate|].
  vm_compute. reflexivity.
Defined.

(** ** Limit evaluation *)

Lemma lazy_reset_limits (now : JsDate) (u : User.t) :
  User.single_transaction_limit (User.lazy_reset now u) = User.single_transaction_limit u /\
  User.daily_transaction_limit (User.lazy_reset now u) = User.daily_transaction_limit u /\
  User.is_active (User.lazy_reset now u) = User.is_active u /\
  User.id (User.lazy_reset now u) = User.id u.
Proof. unfold User.lazy_reset. destruct (User.new_day now u); repeat split. Qed.

Lemma user_check_iff (now : JsDate) (u : User.t) (amt : Number) :
  User.is_allowed (snd (User.canMakeTransaction now amt u)) = false <->
  num_gt amt (User.single_transaction_limit u) = true \/
  num_gt (num_add (daily_spent_at now u) amt) (User.daily_transaction_limit u) = true.
Proof.
  unfold User.canMakeTransaction, daily_spent_at.
  destruct (lazy_reset_limits now u) as (-> & -> & _ & _).
  destruct (num_gt amt _) eqn:E1; simpl; [tauto|].
  destruct (num_gt (num_add _ amt) _) eqn:E2; simpl; [tauto|].
  split; [discriminate|]. intros [H|H]; discriminate.
Qed.

Lemma card_check_iff (now : JsDate) (c : VirtualCard.t) (amt : Number) :
  User.is_allowed (VirtualCard.canMakeTransaction now amt c) = false <->
  VirtualCard.is_active_status (VirtualCard.status_of c) = false \/
  VirtualCard.isExpired now c = true \/
  num_gt (num_add (VirtualCard.total_spent_today c) amt) (VirtualCard.daily_limit c) = true \/
  num_gt (num_add (VirtualCard.total_spent_month c) amt) (VirtualCard.monthly_limit c) = true.
Proof.
  unfold VirtualCard.canMakeTransaction.
  destruct (VirtualCard.is_active_status _); simpl; [|tauto].
  destruct (VirtualCard.isExpired now c); simpl; [tauto|].
  destruct (num_gt (num_add (VirtualCard.total_spent_today c) amt) _); simpl; [tauto|].
  destruct (num_gt (num_add (VirtualCard.total_spent_month c) amt) _); simpl; [tauto|].
  split; [discriminate|]. intros [H|[H|[H|H]]]; discriminate.
Qed.

(** C3. Whatever the cardholder, the card and the amount: if the amount is
    above the cardholder's single-transaction limit, or the running total
    plus the amount is strictly above the cardholder's daily limit or the
    card's daily or monthly limit, the evaluation rejects; for an active
    cardholder and an active card that is not past its expiry month, it
    rejects exactly in these cases; and when every total plus the amount is
    at most its limit, it allows.  The cardholder's running total is the
    counter as the check reads it: the stored counter when it was last
    reset today, and zero when the check resets it on a new calendar day. *)
Theorem limit_evaluation_spec (now : JsDate) (user : User.t) (card : VirtualCard.t)
  (amt : Number) :
  (over_limit now user card amt = true -> limit_evaluation now user card amt = false) /\
  (User.is_active user = true ->
   VirtualCard.status_of card = VirtualCard.active ->
   VirtualCard.isExpired now card = false ->
   (limit_evaluation now user card amt = false <-> over_limit now user card amt = true) /\
   (within_limits now user card amt = true -> limit_evaluation now user card amt = true)) /\
  (User.new_day now user = false ->
   daily_spent_at now user = User.total_daily_spent user) /\
  (User.new_day now user = true -> daily_spent_at now user = of_Z 0).
Proof.
  assert (Hday : (User.new_day now user = false ->
                  daily_spent_at now user = User.total_daily_spent user) /\
                 (User.new_day now user = true -> daily_spent_at now user = of_Z 0)).
  { unfold daily_spent_at, User.lazy_reset. split; intros ->; reflexivity. }
  assert (Hiff : User.is_active user = true ->
                 VirtualCard.status_of card = VirtualCard.active ->
                 VirtualCard.isExpired now card = false ->
                 (limit_evaluation now user card amt = false <->
                  over_limit now user card amt = true)).
  { intros Ha Hs He. unfold limit_evaluation, over_limit. rewrite Ha. simpl.
    rewrite andb_false_iff, user_check_iff, card_check_iff, Hs, He.
    rewrite !orb_true_iff. simpl. intuition discriminate. }
  split; [|split; [intros Ha Hs He; split; [exact (Hiff Ha Hs He)|] | exact Hday]].
  - unfold limit_evaluation, over_limit. rewrite !orb_true_iff.
    intros H. rewrite !andb_false_iff, user_check_iff, card_check_iff. tauto.
  - intros Hw. apply not_false_iff_true. intros E.
    apply (Hiff Ha Hs He) in E. revert Hw E.
    unfold within_limits, over_limit. rewrite !andb_true_iff, !orb_true_iff.
    intros (((H1 & H2) & H3) & H4).
    rewrite (num_le_not_gt _ _ H1), (num_le_not_gt _ _ H2),
      (num_le_not_gt _ _ H3), (num_le_not_gt _ _ H4).
    intuition discriminate.
Qed.

Lemma limit_evaluation_spec_witness :
  over_limit Sample.day1 Sample.holder Sample.card (of_Z 80000) = true /\
  limit_evaluation Sample.day1 Sample.holder Sample.card (of_Z 80000) = false /\
  limit_evaluation Sample.day1 Sample.holder Sample.card (of_Z 1000) = true.
Proof.
  split; [reflexivity|]. split.
  - apply (proj1 (limit_evaluation_spec Sample.day1 Sample.holder Sample.card (of_Z 80000))).
    reflexivity.
  - apply (proj1 (proj2 (limit_evaluation_spec Sample.day1 Sample.holder Sample.card
                             (of_Z 1000))));
      reflexivity.
Defined.

Lemma lazy_reset_phone (now : JsDate) (u : User.t) :
  User.mpesa_phone (User.lazy_reset now u) = User.mpesa_phone u.
Proof. unfold User.lazy_reset. destruct (User.new_day now u); reflexivity. Qed.

Lemma canMakeTransaction_fst (now : JsDate) (amt : Number) (u : User.t) :
  fst (User.canMakeTransaction now amt u) = User.lazy_reset now u.
Proof.
  unfold User.canMakeTransaction.
  repeat match goal with |- context [if ?b then _ else _] => destruct b end; reflexivity.
Qed.


(** ** The transition operation *)

Lemma updateStatus_status (now : JsDate) (s : Transaction.status) (md : bag)
  (x : Transaction.t) :
  Transaction.status_of (Transaction.updateStatus now s md x) = s.
Proof. destruct s; reflexivity. Qed.

Lemma updateStatus_frame (now : JsDate) (s : Transaction.status) (md : bag)
  (x : Transaction.t) :
  let y := Transaction.updateStatus now s md x in
  Transaction.id y = Transaction.id x /\
  Transaction.transaction_reference y = Transaction.transaction_reference x /\
  Transaction.amount_kes y = Transaction.amount_kes x /\
  Transaction.mpesa_checkout_request_id y = Transaction.mpesa_checkout_request_id x /\
  Transaction.timeout_at y = Transaction.timeout_at x /\
  Transaction.metadata y = spread (Transaction.metadata x) md.
Proof. destruct s; repeat split. Qed.


(** C2, as the code has it.  On a terminal entry the transition operation
    is not an error, but it is not a no-op either and it reports nothing:
    it has no terminal-state guard and sets the requested status, merging
    the metadata and keeping the identity, the reference, the amount, the
    gateway correlation and the deadline. *)
Theorem updateStatus_on_terminal (now : JsDate) (s : Transaction.status) (md : bag)
  (x : Transaction.t) :
  Transaction.terminal (Transaction.status_of x) = true ->
  let y := Transaction.updateStatus now s md x in
  Transaction.status_of y = s /\
  Transaction.id y = Transaction.id x /\
  Transaction.transaction_reference y = Transaction.transaction_reference x /\
  Transaction.amount_kes y = Transaction.amount_kes x /\
  Transaction.mpesa_checkout_request_id y = Transaction.mpesa_checkout_request_id x /\
  Transaction.timeout_at y = Transaction.timeout_at x /\
  Transaction.metadata y = spread (Transaction.metadata x) md.
Proof.
  intros _ y. split; [apply updateStatus_status | apply updateStatus_frame].
Qed.

Lemma updateStatus_on_terminal_witness :
  Transaction.terminal
    (Transaction.status_of
       (Sample.entry 1 "TXN1" Transaction.approved (Some "ws_CO_1") (Some 1700000030000)))
  = true /\
  Transaction.status_of
    (Transaction.updateStatus Sample.day2 Transaction.declined ∅
       (Sample.entry 1 "TXN1" Transaction.approved (Some "ws_CO_1") (Some 1700000030000)))
  = Transaction.declined.
Proof.
  split; [reflexivity|].
  apply (updateStatus_on_terminal Sample.day2 Transaction.declined ∅
           (Sample.entry 1 "TXN1" Transaction.approved (Some "ws_CO_1")
              (Some 1700000030000))).
  reflexivity.
Defined.

(** C2, as stated, fails: the transition operation applied to an approved
    entry moves it to [stk_push_sent], out of its terminal state, and
    stamps it anew. *)
Lemma updateStatus_leaves_terminal :
  let x := Sample.entry 1 "TXN1" Transaction.approved (Some "ws_CO_1")
             (Some 1700000030000) in
  let y := Transaction.updateStatus Sample.day2 Transaction.stk_push_sent ∅ x in
  Transaction.terminal (Transaction.status_of x) = true /\
  Transaction.status_of y = Transaction.stk_push_sent /\
  Transaction.terminal (Transaction.status_of y) = false /\
  y <> x.
Proof. repeat split. discriminate. Qed.

(** ** The expiry sweep *)

Lemma pending_and_timed_out_iff (now : JsDate) (x : Transaction.t) :
  Transaction.pending_and_timed_out now x = true <->
  (Transaction.status_of x = Transaction.stk_push_sent \/
   Transaction.status_of x = Transaction.awaiting_user_response) /\
  exists d, Transaction.timeout_at x = Some d /\ d < getTime now.
Proof.
  unfold Transaction.pending_and_timed_out. rewrite andb_true_iff. split.
  - intros [Hs Hd]. split.
    + destruct (Transaction.status_of x); simpl in Hs; try discriminate; auto.
    + destruct (Transaction.timeout_at x) as [d|]; [|discriminate].
      exists d. split; [reflexivity|]. apply Z.ltb_lt, Hd.
  - intros [Hs (d & Hd & Hlt)]. split.
    + destruct Hs as [-> | ->]; reflexivity.
    + rewrite Hd. apply Z.ltb_lt, Hlt.
Qed.

Lemma sweepEntry_settled (now now' : JsDate) (x : Transaction.t) :
  Transaction.pending_and_timed_out now x = true ->
  Transaction.pending_and_timed_out now' (ExpirySweeper.sweepEntry now x) = false.
Proof.
  intros H. unfold ExpirySweeper.sweepEntry. rewrite H.
  unfold Transaction.pending_and_timed_out. rewrite updateStatus_status. reflexivity.
Qed.

(** C4. The finder selects exactly the stored entries whose status is
    [stk_push_sent] or [awaiting_user_response] and whose deadline is
    before now (an entry without a deadline is not selected).  The sweep
    transitions every selected entry to [expired] and leaves every other
    entry as it is, each entry by itself; an entry the sweep has expired
    is left untouched by any later sweep, a later scan of the swept
    entries selects only entries the sweep had not selected, and sweeping
    twice at the same instant is sweeping once. *)
Theorem expiry_sweep_spec (now : JsDate) (txs : list Transaction.t) :
  (forall x, In x (Transaction.findPendingTransactions now txs) <->
             In x txs /\
             (Transaction.status_of x = Transaction.stk_push_sent \/
              Transaction.status_of x = Transaction.awaiting_user_response) /\
             exists d, Transaction.timeout_at x = Some d /\ d < getTime now) /\
  ExpirySweeper.sweep now txs = map (ExpirySweeper.sweepEntry now) txs /\
  (forall x, In x (Transaction.findPendingTransactions now txs) ->
             ExpirySweeper.sweepEntry now x =
             Transaction.updateStatus now Transaction.expired ∅ x /\
             Transaction.status_of (ExpirySweeper.sweepEntry now x) = Transaction.expired /\
             Transaction.id (ExpirySweeper.sweepEntry now x) = Transaction.id x /\
             forall now', ExpirySweeper.sweepEntry now' (ExpirySweeper.sweepEntry now x) =
                          ExpirySweeper.sweepEntry now x) /\
  (forall x, In x txs -> ~ In x (Transaction.findPendingTransactions now txs) ->
             ExpirySweeper.sweepEntry now x = x) /\
  (forall now' y, In y (Transaction.findPendingTransactions now'
                          (ExpirySweeper.sweep now txs)) ->
                  In y txs /\ Transaction.pending_and_timed_out now y = false) /\
  ExpirySweeper.sweep now (ExpirySweeper.sweep now txs) = ExpirySweeper.sweep now txs.
Proof.
  assert (Hsel : forall x, In x (Transaction.findPendingTransactions now txs) <->
                           In x txs /\ Transaction.pending_and_timed_out now x = true).
  { intros x. unfold Transaction.findPendingTransactions. apply filter_In. }
  split; [|split; [reflexivity|split; [|split; [|split]]]].
  - intros x. rewrite Hsel, pending_and_timed_out_iff. reflexivity.
  - intros x Hx. apply Hsel in Hx. destruct Hx as [_ Hp].
    assert (He : ExpirySweeper.sweepEntry now x =
                 Transaction.updateStatus now Transaction.expired ∅ x).
    { unfold ExpirySweeper.sweepEntry. rewrite Hp. reflexivity. }
    split; [exact He|]. rewrite He. split; [reflexivity|]. split; [reflexivity|].
    intros now'. rewrite <- He.
    pose proof (sweepEntry_settled now now' x Hp) as Hs.
    unfold ExpirySweeper.sweepEntry at 1. rewrite Hs. reflexivity.
  - intros x Hin Hnot. unfold ExpirySweeper.sweepEntry.
    destruct (Transaction.pending_and_timed_out now x) eqn:Hp; [|reflexivity].
    exfalso. apply Hnot, Hsel. split; assumption.
  - intros now' y Hy. unfold Transaction.findPendingTransactions in Hy.
    apply filter_In in Hy. destruct Hy as [Hin Hp'].
    unfold ExpirySweeper.sweep in Hin. apply in_map_iff in Hin.
    destruct Hin as (x & <- & Hx).
    destruct (Transaction.pending_and_timed_out now x) eqn:Hp.
    + rewrite (sweepEntry_settled now now' x Hp) in Hp'. discriminate.
    + unfold ExpirySweeper.sweepEntry. rewrite Hp. split; assumption.
  - unfold ExpirySweeper.sweep. rewrite map_map. apply map_ext. intros x.
    destruct (Transaction.pending_and_timed_out now x) eqn:Hp.
    + pose proof (sweepEntry_settled now now x Hp) as Hs.
      unfold ExpirySweeper.sweepEntry at 1. rewrite Hs. reflexivity.
    + unfold ExpirySweeper.sweepEntry. rewrite Hp, Hp. reflexivity.
Qed.


(** ** Queries on a path the schema does not declare *)

Lemma findOne_undeclared {A : Type} (get : A -> string -> Mongoose.stored)
  (path : string) (fields : list (string * Mongoose.scalar)) (docs : list A) :
  (forall d, get d path = Mongoose.Missing) ->
  Mongoose.findOne get [(path, Mongoose.Is (Mongoose.Document fields))] docs = None.
Proof.
  intros Hget. unfold Mongoose.findOne.
  induction docs as [|d l IH]; [reflexivity|].
  cbn. unfold Mongoose.matches at 1. cbn. rewrite Hget. cbn. exact IH.
Qed.

Lemma validateCard_lookup (env : Env) (cs : list VirtualCard.t)
  (cardNumber cvv : string) (expiryMonth expiryYear : Z) :
  String.length cardNumber = 16%nat ->
  String.length cvv = 3%nat ->
  1 <= expiryMonth <= 12 ->
  expiryYear <> 0 ->
  getFullYear (now env) <= expiryYear ->
  CardService.validateCard env cs cardNumber cvv expiryMonth expiryYear =
  inl "Card not found or inactive".
Proof.
  intros Hn Hc Hm Hy0 Hy. unfold CardService.validateCard.
  rewrite Hn, Hc. cbn [Nat.eqb negb].
  replace (Z.eqb expiryMonth 0) with false by (symmetry; apply Z.eqb_neq; lia).
  replace (Z.ltb expiryMonth 1) with false by (symmetry; apply Z.ltb_ge; lia).
  replace (Z.ltb 12 expiryMonth) with false by (symmetry; apply Z.ltb_ge; lia).
  replace (Z.eqb expiryYear 0) with false by (symmetry; apply Z.eqb_neq; lia).
  replace (Z.ltb expiryYear (getFullYear (now env))) with false
    by (symmetry; apply Z.ltb_ge; lia).
  cbn [orb]. rewrite (findOne_undeclared VirtualCard.get) by reflexivity. reflexivity.
Qed.

Lemma validateCard_refuses (env : Env) (cs : list VirtualCard.t)
  (cardNumber cvv : string) (expiryMonth expiryYear : Z) :
  exists reason,
    CardService.validateCard env cs cardNumber cvv expiryMonth expiryYear = inl reason /\
    In reason ["Invalid card number length"; "Invalid CVV"; "Invalid expiry month";
               "Card expired"; "Card not found or inactive"].
Proof.
  unfold CardService.validateCard.
  rewrite (findOne_undeclared VirtualCard.get) by reflexivity.
  repeat match goal with |- context [if ?b then _ else _] => destruct b end;
    eexists; (split; [reflexivity|]); cbn; auto 6.
Qed.

(** ** What the three functions of the authorization service do *)

Lemma authorizeTransaction_run (env : Env) (req : AuthorizationService.Request) (st : State) :
  exists reason,
    CardService.validateCard env (cards st) (AuthorizationService.card_number req)
      (AuthorizationService.cvv req) (AuthorizationService.expiry_month req)
      (AuthorizationService.expiry_year req) = inl reason /\
    AuthorizationService.authorizeTransaction env req st =
    (st, AuthorizationService.decline "14" reason
           (AuthorizationService.generateTransactionReference env 0), []).
Proof.
  destruct (validateCard_refuses env (cards st) (AuthorizationService.card_number req)
              (AuthorizationService.cvv req) (AuthorizationService.expiry_month req)
              (AuthorizationService.expiry_year req)) as (reason & Hv & _).
  exists reason. split; [exact Hv|].
  unfold AuthorizationService.authorizeTransaction, AuthorizationService.authorizing,
    mbind, Op_bind, bind, read, start.
  cbn [store fst snd]. rewrite Hv. reflexivity.
Qed.

Lemma handleSTKCallback_run (env : Env) (cb : AuthorizationService.CallbackData) (st : State) :
  AuthorizationService.handleSTKCallback env cb st =
  (st, AuthorizationService.CallbackError "Transaction not found").
Proof.
  unfold AuthorizationService.handleSTKCallback, AuthorizationService.handling,
    mbind, Op_bind, bind, read, start.
  cbn [store fst snd].
  rewrite (findOne_undeclared Transaction.get) by reflexivity. reflexivity.
Qed.

Lemma queryTransactionStatus_run (env : Env) (ref : string) (st : State) :
  AuthorizationService.queryTransactionStatus env ref st =
  (st, AuthorizationService.StatusError "Transaction not found", []).
Proof.
  unfold AuthorizationService.queryTransactionStatus, AuthorizationService.querying,
    mbind, Op_bind, bind, read, start.
  cbn [store fst snd].
  rewrite (findOne_undeclared Transaction.get) by reflexivity. reflexivity.
Qed.

(** ** The callback handler *)


(** The store of the failing input holds the approved entry that carries
    the correlation id of the callback; the static finder of the model
    finds it, the handler does not. *)
Example handleSTKCallback_on_terminal_sample :
  let env := Sample.env_at Sample.day1 Sample.accepting Sample.no_fault in
  Transaction.findByCheckoutRequestId (AuthorizationService.checkoutRequestID Sample.paid)
    (transactions Sample.state_approved) = Some Sample.approved_entry /\
  Transaction.terminal (Transaction.status_of Sample.approved_entry) = true /\
  AuthorizationService.handleSTKCallback env Sample.paid Sample.state_approved =
  (Sample.state_approved, AuthorizationService.CallbackError "Transaction not found").
Proof. repeat split. Qed.

(** ** The status query *)

(** C5, at the failing input.  Whatever the reference and whatever the
    store, the query finds no entry: it asks for a document with a path
    [where].  It answers the error "Transaction not found", changes
    nothing and never contacts the gateway: no recorded state is
    returned, no entry is expired and no result is reconciled. *)
Theorem queryTransactionStatus_spec (env : Env) (ref : string) (st : State) :
  AuthorizationService.queryTransactionStatus env ref st =
  (st, AuthorizationService.StatusError "Transaction not found", []).
Proof.
  unfold AuthorizationService.queryTransactionStatus, AuthorizationService.querying,
    mbind, Op_bind, bind, read, start.
  cbn [store fst snd].
  rewrite (findOne_undeclared Transaction.get) by reflexivity. reflexivity.
Qed.

(** The store of the failing input is the one [POST /api/transactions]
    leaves: the entry is stored under the queried reference, and found by
    the static finder of the model, not by the query. *)
Example queryTransactionStatus_spec_sample :
  let env := Sample.env_at Sample.day1 Sample.accepting Sample.no_fault in
  fst (TransactionRoutes.createTransaction env SampleRequests.creation Sample.state_empty) =
  Sample.state_created /\
  Transaction.findByReference "TXN_1700000000000_k3j9x2m1q"
    (transactions Sample.state_created) = Some Sample.created_entry /\
  AuthorizationService.queryTransactionStatus env "TXN_1700000000000_k3j9x2m1q"
    Sample.state_created =
  (Sample.state_created, AuthorizationService.StatusError "Transaction not found", []).
Proof. repeat split. Qed.

(** ** Entries without a deadline *)



(** ** The statics of the transaction model as queries *)

(** The statics name paths of the schema, and are the first match, or the
    matches, of their conditions on the stored values. *)
Lemma findByReference_query (ref : string) (txs : list Transaction.t) :
  Transaction.findByReference ref txs =
  Mongoose.findOne Transaction.get
    [("transaction_reference", Mongoose.Is (Mongoose.text ref))] txs.
Proof.
  unfold Transaction.findByReference, Mongoose.findOne.
  induction txs as [|x l IH]; [reflexivity|]. cbn [List.find]. rewrite IH.
  unfold Mongoose.matches at 1. cbn. rewrite andb_true_r. reflexivity.
Qed.

Lemma findByCheckoutRequestId_query (cid : option string) (txs : list Transaction.t) :
  Transaction.findByCheckoutRequestId cid txs =
  Mongoose.findOne Transaction.get
    [("mpesa_checkout_request_id",
      Mongoose.Is (Mongoose.Value (Mongoose.text_or_undefined cid)))] txs.
Proof.
  unfold Transaction.findByCheckoutRequestId, Mongoose.findOne.
  induction txs as [|x l IH]; [reflexivity|]. cbn [List.find]. rewrite IH.
  unfold Mongoose.matches at 1. cbn. rewrite andb_true_r.
  destruct (Transaction.mpesa_checkout_request_id x), cid; reflexivity.
Qed.

Lemma findPendingTransactions_query (now : JsDate) (txs : list Transaction.t) :
  Transaction.findPendingTransactions now txs =
  Mongoose.find Transaction.get
    [("status",
      Mongoose.OneOf [Mongoose.text "stk_push_sent"; Mongoose.text "awaiting_user_response"]);
     ("timeout_at", Mongoose.Before (Mongoose.Value (Mongoose.Date (getTime now))))] txs.
Proof.
  unfold Transaction.findPendingTransactions, Mongoose.find.
  apply List.filter_ext. intros x.
  unfold Mongoose.matches, Transaction.pending_and_timed_out. cbn.
  rewrite andb_true_r, orb_false_r.
  destruct (Transaction.status_of x), (Transaction.timeout_at x); reflexivity.
Qed.

(** ** The ledger under the operations of the code *)

Lemma stkPushCallback_run (env : Env) (cb : Webhooks.StkCallback) (st : State) :
  Webhooks.stkPushCallback env cb st = (st, 404).
Proof.
  unfold Webhooks.stkPushCallback.
  assert (H : Mongoose.findOne Transaction.get
                [("mpesaRequestId",
                  Mongoose.Is (Mongoose.Value
                                 (Mongoose.text_or_undefined (Webhooks.MerchantRequestID cb))));
                 ("status", Mongoose.Is (Mongoose.text "pending"))]
                (transactions st) = None).
  { unfold Mongoose.findOne. induction (transactions st) as [|x l IH]; [reflexivity|].
    cbn [List.find]. rewrite IH.
    replace (Mongoose.matches Transaction.get _ x) with false; [reflexivity|].
    unfold Mongoose.matches. cbn [forallb fst snd]. symmetry.
    apply andb_false_iff. right. apply andb_false_iff. left.
    destruct x as [? ? ? ? ? ? ? ? ? ? s]. destruct s; reflexivity. }
  rewrite H. reflexivity.
Qed.

Lemma createTransaction_ledger (env : Env) (inp : TransactionRoutes.Inputs) (st : State) :
  let st' := fst (TransactionRoutes.createTransaction env inp st) in
  transactions st' = transactions st \/
  exists cardId,
    transactions st' = (transactions st ++ [TransactionRoutes.entry env inp cardId st])%list.
Proof.
  cbv zeta. unfold TransactionRoutes.createTransaction.
  destruct (TransactionRoutes.cardId inp) as [cardId|]; [|left; reflexivity].
  destruct (_ || _); [left; reflexivity|].
  destruct (Mongoose.findOne _ _ _) as [card|]; [|left; reflexivity].
  destruct (negb _); [left; reflexivity|].
  unfold Documents.create, Documents.storage, mbind, Op_bind, bind, read, write, throw,
    mret, Op_ret, ret, start.
  destruct (negb (Transaction.valid _)); [left; reflexivity|].
  cbn [store calls drawn written fst snd].
  destruct (write_fails env 0); [left; reflexivity|].
  cbn [store calls drawn written fst snd].
  destruct (existsb _ _); [left; reflexivity|].
  right. exists cardId. reflexivity.
Qed.

Lemma entry_as_created (env : Env) (inp : TransactionRoutes.Inputs) (cardId : nat)
  (st : State) :
  Ledger.as_created (TransactionRoutes.entry env inp cardId st).
Proof.
  repeat split. exists (now env), (TransactionRoutes.random inp). reflexivity.
Qed.

Lemma step_as_created (st st' : State) :
  Ledger.step st st' ->
  Forall Ledger.as_created (transactions st) ->
  Forall Ledger.as_created (transactions st').
Proof.
  intros Hs Hall. destruct Hs as [env inp st | env req st | env cb st | env ref st
                                 | env cb st | st st' He].
  - destruct (createTransaction_ledger env inp st) as [-> | (cardId & ->)]; [exact Hall|].
    apply Forall_app. split; [exact Hall|].
    constructor; [apply entry_as_created|constructor].
  - destruct (authorizeTransaction_run env req st) as (reason & _ & ->). exact Hall.
  - rewrite handleSTKCallback_run. exact Hall.
  - rewrite queryTransactionStatus_run. exact Hall.
  - rewrite stkPushCallback_run. exact Hall.
  - rewrite He. exact Hall.
Qed.

Lemma reachable_as_created (st : State) :
  Ledger.reachable st -> Forall Ledger.as_created (transactions st).
Proof.
  induction 1 as [st He | st st' _ IH Hs].
  - rewrite He. constructor.
  - exact (step_as_created st st' Hs IH).
Qed.

(** The two shapes of reference: after [TXN], the handler of the route
    writes an underscore, and [generateTransactionReference] the first
    character of a number. *)
Lemma pretty_N_go_head (x : N) (s t rest : string) :
  s +:+ t <> String "_" rest -> pretty.pretty_N_go x s +:+ t <> String "_" rest.
Proof.
  revert s. induction (N.lt_wf_0 x) as [x _ IH]. intros s Hs.
  destruct (N.eq_dec x 0%N) as [-> | Hx].
  - rewrite pretty.pretty_N_go_0. exact Hs.
  - rewrite pretty.pretty_N_go_step by lia.
    apply IH; [apply N.div_lt; lia|].
    unfold pretty.pretty_N_char.
    repeat case_match; cbn; intros [= E]; discriminate E.
Qed.

Lemma pretty_Z_head (z : Z) (t rest : string) : pretty z +:+ t <> String "_" rest.
Proof.
  assert (HN : forall n : N, pretty n +:+ t <> String "_" rest).
  { intros n. unfold pretty, pretty.pretty_N. case_decide as Hn.
    - cbn. discriminate.
    - rewrite pretty.pretty_N_go_step by lia. apply pretty_N_go_head.
      unfold pretty.pretty_N_char. repeat case_match; cbn; intros [= E]; discriminate E. }
  destruct z as [|p|p].
  - cbn. discriminate.
  - apply (HN (Npos p)).
  - cbn. discriminate.
Qed.

Lemma reference_shapes (env : Env) (n : nat) (now : JsDate) (random : string) :
  AuthorizationService.generateTransactionReference env n <>
  TransactionRoutes.transactionReference now random.
Proof.
  unfold AuthorizationService.generateTransactionReference,
    TransactionRoutes.transactionReference.
  cbn. intros [= E]. exact (pretty_Z_head _ _ _ E).
Qed.

Lemma findByReference_fresh (env : Env) (n : nat) (txs : list Transaction.t) :
  Forall Ledger.as_created txs ->
  Transaction.findByReference (AuthorizationService.generateTransactionReference env n) txs =
  None.
Proof.
  intros Hall. unfold Transaction.findByReference.
  induction Hall as [|x l (_ & _ & _ & now & random & Hr) _ IH]; [reflexivity|].
  cbn [List.find]. rewrite IH.
  destruct (String.eqb_spec (Transaction.transaction_reference x)
              (AuthorizationService.generateTransactionReference env n)) as [E|_];
    [|reflexivity].
  exfalso. apply (reference_shapes env n now random). rewrite <- E. exact Hr.
Qed.

(** ** The authorization orchestrator *)

(** C8. Every charge request is answered by a decline before any ledger
    entry is created, the card never being found: the whole stored state
    is what it was, the gateway is not called, and the outcome is a
    decline "14" that carries the reason of the validation and the first
    reference drawn.  On a ledger the code has built, that reference is
    the reference of no stored entry (entries are stored under [TXN_...],
    the draw is [TXN] followed by a number); and on any ledger a status
    query by it finds nothing. *)
Theorem decline_before_entry (env : Env) (req : AuthorizationService.Request) (st : State) :
  let r := AuthorizationService.authorizeTransaction env req st in
  let out := snd (fst r) in
  fst (fst r) = st /\
  snd r = [] /\
  AuthorizationService.approved out = false /\
  AuthorizationService.pending out = false /\
  AuthorizationService.decline_code out = JString "14" /\
  (exists reason,
      AuthorizationService.decline_reason out = JString reason /\
      In reason ["Invalid card number length"; "Invalid CVV"; "Invalid expiry month";
                 "Card expired"; "Card not found or inactive"]) /\
  AuthorizationService.transaction_reference out =
  AuthorizationService.generateTransactionReference env 0 /\
  (Ledger.reachable st ->
   Transaction.findByReference (AuthorizationService.transaction_reference out)
     (transactions (fst (fst r))) = None) /\
  (forall env',
      snd (fst (AuthorizationService.queryTransactionStatus env'
                  (AuthorizationService.transaction_reference out) (fst (fst r)))) =
      AuthorizationService.StatusError "Transaction not found").
Proof.
  cbv zeta.
  destruct (authorizeTransaction_run env req st) as (reason & Hv & ->).
  cbn [fst snd AuthorizationService.decline AuthorizationService.approved
         AuthorizationService.pending AuthorizationService.decline_code
         AuthorizationService.decline_reason AuthorizationService.transaction_reference].
  repeat (split; [reflexivity|]). split.
  - exists reason. split; [reflexivity|].
    destruct (validateCard_refuses env (cards st) (AuthorizationService.card_number req)
                (AuthorizationService.cvv req) (AuthorizationService.expiry_month req)
                (AuthorizationService.expiry_year req)) as (reason' & Hv' & Hin).
    rewrite Hv in Hv'. injection Hv' as ->. exact Hin.
  - split; [reflexivity|]. split.
    + intros Hr. apply findByReference_fresh, reachable_as_created, Hr.
    + intros env'. rewrite queryTransactionStatus_run. reflexivity.
Qed.

(** The sample charge, on the ledger that holds the entry
    [POST /api/transactions] created. *)
Lemma decline_before_entry_witness :
  let env := Sample.env_at Sample.day1 Sample.accepting Sample.no_fault in
  let r := AuthorizationService.authorizeTransaction env (Sample.charge 1000)
             Sample.state_created in
  Ledger.reachable Sample.state_created /\
  fst (fst r) = Sample.state_created /\
  snd (fst r) =
  AuthorizationService.decline "14" "Card not found or inactive" "TXN1700000000000A1B2C3" /\
  Transaction.findByReference "TXN1700000000000A1B2C3" (transactions Sample.state_created) =
  None.
Proof.
  assert (H : Ledger.reachable Sample.state_created).
  { apply (Ledger.Step Sample.state_empty).
    - apply Ledger.Empty. reflexivity.
    - apply (Ledger.Create (Sample.env_at Sample.day1 Sample.accepting Sample.no_fault)
               SampleRequests.creation Sample.state_empty). }
  split; [exact H|].
  destruct (decline_before_entry
              (Sample.env_at Sample.day1 Sample.accepting Sample.no_fault)
              (Sample.charge 1000) Sample.state_created)
    as (Hst & _ & _ & _ & _ & _ & _ & Hfresh & _).
  split; [exact Hst|]. split; [reflexivity|]. exact (Hfresh H).
Defined.
(** * Further properties of the code *)

(** ** Strings *)

Lemma chars_append (a b : string) :
  String.list_ascii_of_string (a +:+ b) =
  (String.list_ascii_of_string a ++ String.list_ascii_of_string b)%list.
Proof. induction a as [|c a IH]; simpl; [reflexivity|]. rewrite IH. reflexivity. Qed.

Lemma length_append (a b : string) :
  String.length (a +:+ b) = (String.length a + String.length b)%nat.
Proof. induction a as [|c a IH]; simpl; [reflexivity|]. rewrite IH. reflexivity. Qed.

Lemma Qfloor_between (x : Q) (a b : Z) :
  (inject_Z a <= x)%Q -> (x < inject_Z b)%Q -> a <= Qfloor x < b.
Proof.
  intros Ha Hb. split.
  - apply Z.lt_succ_r. rewrite <- Z.add_1_r, Zlt_Qlt.
    eapply Qle_lt_trans; [exact Ha|apply Qlt_floor].
  - rewrite Zlt_Qlt. eapply Qle_lt_trans; [apply Qfloor_le|exact Hb].
Qed.

(** ** Luhn *)

Section CardGeneration.

Import VirtualCardStatics.

Lemma parseIntChar_range (c : ascii) (d : Z) : parseIntChar c = Some d -> 0 <= d <= 9.
Proof.
  unfold parseIntChar.
  destruct (Nat.leb 48 (nat_of_ascii c)) eqn:H1; [|discriminate].
  destruct (Nat.leb (nat_of_ascii c) 57) eqn:H2; [|discriminate].
  simpl. intros [= <-]. apply Nat.leb_le in H1, H2. lia.
Qed.

Lemma luhn_digit_range (e : bool) (c : ascii) (d : Z) :
  luhn_digit e c = Some d -> 0 <= d <= 9.
Proof.
  unfold luhn_digit. destruct (parseIntChar c) as [x|] eqn:Hx; [|discriminate].
  apply parseIntChar_range in Hx.
  destruct e; [|intros [= <-]; exact Hx].
  cbv zeta. destruct (Z.ltb_spec 9 (x * 2)); intros [= <-]; lia.
Qed.

Lemma luhn_loop_shift (cs : list ascii) (e : bool) (sum : option Z) :
  luhn_loop cs e sum = add_nan sum (luhn_loop cs e (Some 0)).
Proof.
  revert e sum. induction cs as [|c r IH]; intros e sum; cbn [luhn_loop].
  - destruct sum as [s|]; simpl; [f_equal; lia|reflexivity].
  - rewrite (IH _ (add_nan sum _)), (IH _ (add_nan (Some 0) _)).
    destruct sum as [s|], (luhn_digit e c) as [d|], (luhn_loop r (negb e) (Some 0)) as [t|];
      simpl; try reflexivity. f_equal. lia.
Qed.

Lemma luhn_loop_nonneg (cs : list ascii) (e : bool) (t : Z) :
  luhn_loop cs e (Some 0) = Some t -> 0 <= t.
Proof.
  revert e t. induction cs as [|c r IH]; intros e t; cbn [luhn_loop].
  - intros [= <-]. lia.
  - rewrite luhn_loop_shift.
    destruct (luhn_digit e c) as [d|] eqn:Hd; simpl; [|discriminate].
    destruct (luhn_loop r (negb e) (Some 0)) as [u|] eqn:Hu; simpl; [|discriminate].
    intros [= <-]. apply luhn_digit_range in Hd. apply IH in Hu. lia.
Qed.

Lemma pretty_digit (d : Z) :
  0 <= d <= 9 -> exists c, pretty d = String c EmptyString /\ parseIntChar c = Some d.
Proof.
  intros H.
  assert (Hd : d = 0 \/ d = 1 \/ d = 2 \/ d = 3 \/ d = 4 \/ d = 5 \/ d = 6 \/ d = 7 \/
               d = 8 \/ d = 9) by lia.
  repeat (destruct Hd as [-> | Hd]; [eexists; split; vm_compute; reflexivity|]).
  subst d. eexists; split; vm_compute; reflexivity.
Qed.

(** Appending one character [c]: it is added undoubled, and the digits before
    it are summed with the rightmost of them doubled. *)
Lemma luhn_sum_snoc (p : string) (c : ascii) :
  luhn_sum (p +:+ String c EmptyString) =
  add_nan (parseIntChar c) (luhn_sum_doubled p).
Proof.
  unfold luhn_sum, luhn_sum_doubled. rewrite chars_append, rev_app_distr.
  cbn [String.list_ascii_of_string rev app luhn_loop negb].
  rewrite luhn_loop_shift. unfold luhn_digit.
  destruct (parseIntChar c) as [d|]; simpl; [|reflexivity].
  destruct (luhn_loop _ true (Some 0)); reflexivity.
Qed.

Lemma luhn_loop_digits (cs : list ascii) (e : bool) :
  forallb is_digit cs = true -> exists t, luhn_loop cs e (Some 0) = Some t.
Proof.
  revert e. induction cs as [|c r IH]; intros e; cbn [luhn_loop forallb].
  - eauto.
  - intros H. apply andb_true_iff in H. destruct H as [Hc Hr].
    rewrite luhn_loop_shift. destruct (IH (negb e) Hr) as [t ->].
    unfold is_digit in Hc. unfold luhn_digit.
    destruct (parseIntChar c) as [d|]; [|discriminate].
    destruct e; cbv zeta; [destruct (Z.ltb 9 (d * 2))|]; simpl; eauto.
Qed.

Lemma all_digits_sums (s : string) :
  all_digits s = true ->
  exists u t, luhn_sum s = Some u /\ luhn_sum_doubled s = Some t.
Proof.
  unfold all_digits, luhn_sum, luhn_sum_doubled. intros H.
  assert (Hr : forallb is_digit (rev (String.list_ascii_of_string s)) = true).
  { apply forallb_forall. intros c Hc. apply in_rev in Hc.
    exact (proj1 (forallb_forall _ _) H c Hc). }
  destruct (luhn_loop_digits _ false Hr) as [u Hu].
  destruct (luhn_loop_digits _ true Hr) as [t Ht]. eauto.
Qed.

Lemma isValidLuhn_snoc (p : string) (t c : Z) :
  luhn_sum_doubled p = Some t -> 0 <= c <= 9 ->
  isValidLuhn (p +:+ pretty c) = Z.eqb ((c + t) mod 10) 0.
Proof.
  intros Ht Hc. destruct (pretty_digit c Hc) as (ch & -> & Hch).
  unfold isValidLuhn. rewrite luhn_sum_snoc, Hch, Ht. simpl.
  apply luhn_loop_nonneg in Ht. rewrite Z.rem_mod_nonneg by lia. reflexivity.
Qed.

(** X1. Among the ten digits, exactly one completes a string of digits into a
    number that [isValidLuhn] accepts. *)
Theorem luhn_check_digit_unique (payload : string) :
  all_digits payload = true ->
  exists c, 0 <= c <= 9 /\
            forall c', 0 <= c' <= 9 ->
                       (isValidLuhn (payload +:+ pretty c') = true <-> c' = c).
Proof.
  intros H. destruct (all_digits_sums payload H) as (_ & t & _ & Ht).
  exists ((10 - t mod 10) mod 10). split; [Z.to_euclidean_division_equations; lia|].
  intros c' Hc'. rewrite (isValidLuhn_snoc payload t c' Ht Hc'), Z.eqb_eq.
  Z.to_euclidean_division_equations; lia.
Qed.

Lemma luhn_check_digit_unique_witness :
  all_digits "453957876362148" = true /\
  exists c, 0 <= c <= 9 /\
            forall c', 0 <= c' <= 9 ->
                       (isValidLuhn ("453957876362148" +:+ pretty c') = true <-> c' = c).
Proof.
  split; [reflexivity|].
  apply (luhn_check_digit_unique "453957876362148"). reflexivity.
Defined.

Lemma calculateLuhnCheckDigit_digit (number : string) (u : Z) :
  luhn_sum number = Some u ->
  calculateLuhnCheckDigit number = Some ((10 - u mod 10) mod 10) /\
  0 <= (10 - u mod 10) mod 10 <= 9.
Proof.
  intros Hu. pose proof (luhn_loop_nonneg _ _ _ Hu) as Hu0. split.
  - unfold calculateLuhnCheckDigit. rewrite Hu.
    rewrite (Z.rem_mod_nonneg u 10) by lia.
    rewrite Z.rem_mod_nonneg by (Z.to_euclidean_division_equations; lia).
    reflexivity.
  - Z.to_euclidean_division_equations; lia.
Qed.

(** X2. The digit of [calculateLuhnCheckDigit] completes a string of digits into
    a number that [isValidLuhn] accepts exactly when the sum of the string
    and its sum with the doubling shifted by one place agree modulo 10;
    there are fifteen-digit strings with the BIN for which it does, and
    others for which it does not. *)
Theorem calculateLuhnCheckDigit_valid_iff (number : string) (u t : Z) :
  luhn_sum number = Some u ->
  luhn_sum_doubled number = Some t ->
  (exists c, calculateLuhnCheckDigit number = Some c /\ 0 <= c <= 9) /\
  (isValidLuhn (number +:+ to_string (calculateLuhnCheckDigit number)) = true <->
   u mod 10 = t mod 10) /\
  isValidLuhn ("400001000000000" +:+
               to_string (calculateLuhnCheckDigit "400001000000000")) = false /\
  isValidLuhn ("400001000000006" +:+
               to_string (calculateLuhnCheckDigit "400001000000006")) = true.
Proof.
  intros Hu Ht.
  destruct (calculateLuhnCheckDigit_digit number u Hu) as [Hc Hr].
  split; [exists ((10 - u mod 10) mod 10); split; [exact Hc|exact Hr]|].
  split; [|split; vm_compute; reflexivity].
  rewrite Hc. cbn [to_string].
  rewrite (isValidLuhn_snoc number t _ Ht) by exact Hr.
  rewrite Z.eqb_eq. Z.to_euclidean_division_equations; lia.
Qed.

Lemma calculateLuhnCheckDigit_valid_iff_witness :
  luhn_sum "400001456789012" = Some 43 /\
  luhn_sum_doubled "400001456789012" = Some 53 /\
  isValidLuhn ("400001456789012" +:+
               to_string (calculateLuhnCheckDigit "400001456789012")) = true.
Proof.
  split; [reflexivity|]. split; [reflexivity|].
  apply (proj1 (proj2 (calculateLuhnCheckDigit_valid_iff "400001456789012" 43 53
                         eq_refl eq_refl))).
  reflexivity.
Defined.

(** ** Card number generation *)

Lemma all_digits_append (a b : string) :
  all_digits (a +:+ b) = all_digits a && all_digits b.
Proof. unfold all_digits. rewrite chars_append. apply forallb_app. Qed.

Lemma append_cons (c : ascii) (a b : string) : String c a +:+ b = String c (a +:+ b).
Proof. reflexivity. Qed.

Lemma append_nil_r (a : string) : a +:+ EmptyString = a.
Proof.
  induction a as [|c a IH]; [reflexivity|]. rewrite append_cons, IH. reflexivity.
Qed.

Lemma append_assoc (a b c : string) : (a +:+ b) +:+ c = a +:+ (b +:+ c).
Proof.
  induction a as [|x a IH]; [reflexivity|]. rewrite !append_cons, IH. reflexivity.
Qed.

Lemma fold_append_digits (g : nat -> string) (l : list nat) (acc : string) :
  (forall i, String.length (g i) = 1%nat /\ all_digits (g i) = true) ->
  exists suffix,
    fold_left (fun s i => s +:+ g i) l acc = acc +:+ suffix /\
    String.length suffix = length l /\ all_digits suffix = true.
Proof.
  intros Hg. revert acc. induction l as [|i l IH]; intros acc; cbn [fold_left].
  - exists EmptyString. split; [|split; reflexivity].
    symmetry. apply append_nil_r.
  - destruct (IH (acc +:+ g i)) as (suffix & -> & Hl & Hd).
    exists (g i +:+ suffix). split; [|split].
    + apply append_assoc.
    + rewrite length_append, (proj1 (Hg i)), Hl. reflexivity.
    + rewrite all_digits_append, (proj2 (Hg i)), Hd. reflexivity.
Qed.

Lemma random_digit (r : Q) :
  (0 <= r)%Q -> (r < 1)%Q ->
  String.length (pretty (Qfloor (r * 10))) = 1%nat /\
  all_digits (pretty (Qfloor (r * 10))) = true.
Proof.
  intros H0 H1.
  assert (Hd : 0 <= Qfloor (r * 10) <= 9).
  { assert (H : 0 <= Qfloor (r * 10) < 10); [|lia].
    apply Qfloor_between; unfold inject_Z; lra. }
  destruct (pretty_digit _ Hd) as (c & -> & Hc).
  split; [reflexivity|]. unfold all_digits, is_digit. simpl. rewrite Hc. reflexivity.
Qed.

Lemma candidate_shape (random : nat -> Q) (attempt : nat) :
  (forall k, (0 <= random k)%Q /\ (random k < 1)%Q) ->
  exists suffix,
    candidate random attempt = "400001" +:+ suffix /\
    String.length suffix = 9%nat /\ all_digits suffix = true.
Proof.
  intros Hr. unfold candidate.
  apply (fold_append_digits
           (fun i => pretty (Qfloor (random (9 * attempt + i)%nat * 10))) (seq 0 9)).
  intros i. apply random_digit; apply Hr.
Qed.

Lemma generateCardNumber_from_spec (sha256 : string -> string) (cs : list VirtualCard.t)
  (random : nat -> Q) (remaining attempts : nat) :
  match generateCardNumber_from sha256 cs random remaining attempts with
  | Some n =>
      exists k, (attempts <= k < attempts + remaining)%nat /\
                n = finalCardNumber random k /\ kept sha256 cs n = true /\
                forall j, (attempts <= j < k)%nat ->
                          kept sha256 cs (finalCardNumber random j) = false
  | None =>
      forall j, (attempts <= j < attempts + remaining)%nat ->
                kept sha256 cs (finalCardNumber random j) = false
  end.
Proof.
  revert attempts. induction remaining as [|r IH]; intros a; cbn [generateCardNumber_from].
  - intros j Hj. lia.
  - fold (finalCardNumber random a).
    assert (Hstep : forall j, (a <= j < S a)%nat -> j = a) by (intros; lia).
    destruct (isValidLuhn (finalCardNumber random a)) eqn:Hv; cbn [negb].
    + destruct (existsb _ cs) eqn:Hx.
      * specialize (IH (S a)).
        destruct (generateCardNumber_from sha256 cs random r (S a)) as [n|].
        -- destruct IH as (k & Hk & Hn & Hkept & Hbefore).
           exists k. split; [lia|]. split; [exact Hn|]. split; [exact Hkept|].
           intros j Hj. destruct (Nat.eq_dec j a) as [->|Hne].
           ++ unfold kept. rewrite Hv, Hx. reflexivity.
           ++ apply Hbefore. lia.
        -- intros j Hj. destruct (Nat.eq_dec j a) as [->|Hne].
           ++ unfold kept. rewrite Hv, Hx. reflexivity.
           ++ apply IH. lia.
      * exists a. split; [lia|]. split; [reflexivity|]. split.
        -- unfold kept. rewrite Hv, Hx. reflexivity.
        -- intros j Hj. lia.
    + specialize (IH (S a)).
      destruct (generateCardNumber_from sha256 cs random r (S a)) as [n|].
      * destruct IH as (k & Hk & Hn & Hkept & Hbefore).
        exists k. split; [lia|]. split; [exact Hn|]. split; [exact Hkept|].
        intros j Hj. destruct (Nat.eq_dec j a) as [->|Hne].
        -- unfold kept. rewrite Hv. reflexivity.
        -- apply Hbefore. lia.
      * intros j Hj. destruct (Nat.eq_dec j a) as [->|Hne].
        -- unfold kept. rewrite Hv. reflexivity.
        -- apply IH. lia.
Qed.

Lemma generateCardNumber_facts (sha256 : string -> string) (cs : list VirtualCard.t)
  (random : nat -> Q) :
  (forall k, (0 <= random k)%Q /\ (random k < 1)%Q) ->
  match generateCardNumber sha256 cs random with
  | Some n =>
      String.length n = 16%nat /\
      String.prefix "400001" n = true /\
      all_digits n = true /\
      isValidLuhn n = true /\
      (forall c, In c cs -> VirtualCard.card_number_hash c <> sha256 n) /\
      exists k, (k < 100)%nat /\ n = finalCardNumber random k /\
                forall j, (j < k)%nat -> kept sha256 cs (finalCardNumber random j) = false
  | None =>
      forall j, (j < 100)%nat -> kept sha256 cs (finalCardNumber random j) = false
  end.
Proof.
  intros Hr. unfold generateCardNumber.
  pose proof (generateCardNumber_from_spec sha256 cs random 100 0) as H.
  destruct (generateCardNumber_from sha256 cs random 100 0) as [n|].
  - destruct H as (k & Hk & Hn & Hkept & Hbefore).
    unfold kept in Hkept. apply andb_true_iff in Hkept. destruct Hkept as [Hv Hx].
    destruct (candidate_shape random k Hr) as (suffix & Hc & Hl & Hd).
    assert (Hcd : all_digits (candidate random k) = true).
    { rewrite Hc, all_digits_append, Hd. reflexivity. }
    destruct (all_digits_sums _ Hcd) as (u & t & Hu & Ht).
    destruct (calculateLuhnCheckDigit_digit _ u Hu) as [Hcheck Hcr].
    set (c := (10 - u mod 10) mod 10) in Hcheck, Hcr.
    destruct (pretty_digit c Hcr) as (ch & Hp & Hch).
    assert (Hshape : n = ("400001" +:+ suffix) +:+ String ch EmptyString).
    { rewrite Hn. unfold finalCardNumber. rewrite Hcheck, Hc. cbn [to_string].
      rewrite Hp. reflexivity. }
    split; [|split; [|split; [|split; [|split]]]].
    + rewrite Hshape, !length_append, Hl. reflexivity.
    + rewrite Hshape. clear. destruct suffix; reflexivity.
    + rewrite Hshape, !all_digits_append, Hd. unfold all_digits, is_digit. simpl.
      rewrite Hch. reflexivity.
    + exact Hv.
    + intros card Hin Heq. apply negb_true_iff in Hx.
      assert (Hex : existsb (fun c0 => String.eqb (VirtualCard.card_number_hash c0)
                                         (sha256 n)) cs = true).
      { apply existsb_exists. exists card. split; [exact Hin|].
        apply String.eqb_eq. exact Heq. }
      rewrite Hex in Hx. discriminate.
    + exists k. split; [lia|]. split; [exact Hn|]. intros j Hj. apply Hbefore. lia.
  - intros j Hj. apply H. lia.
Qed.

(** X3. With draws in [0, 1), a number returned by [generateCardNumber] has
    sixteen characters, all digits, starts with the BIN 400001, passes
    [isValidLuhn] and has the hash of no stored card; it is the number of
    the first attempt that passes both tests, and the function fails only
    when none of the hundred attempts does. *)
Theorem generateCardNumber_sound (sha256 : string -> string) (cs : list VirtualCard.t)
  (random : nat -> Q) :
  (forall k, (0 <= random k)%Q /\ (random k < 1)%Q) ->
  match generateCardNumber sha256 cs random with
  | Some n =>
      String.length n = 16%nat /\
      String.prefix "400001" n = true /\
      all_digits n = true /\
      isValidLuhn n = true /\
      (forall c, In c cs -> VirtualCard.card_number_hash c <> sha256 n) /\
      exists k, (k < 100)%nat /\ n = finalCardNumber random k /\
                forall j, (j < k)%nat -> kept sha256 cs (finalCardNumber random j) = false
  | None =>
      forall j, (j < 100)%nat -> kept sha256 cs (finalCardNumber random j) = false
  end.
Proof.
  intros Hr. apply generateCardNumber_facts. exact Hr.
Qed.

Lemma generateCardNumber_sound_witness :
  let random := fun k : nat => if Nat.eqb k 8 then (6 # 10)%Q else 0%Q in
  (forall k, (0 <= random k)%Q /\ (random k < 1)%Q) /\
  generateCardNumber (fun s => s) [] random = Some "4000010000000068" /\
  isValidLuhn "4000010000000068" = true.
Proof.
  cbv zeta.
  assert (Hr : forall k : nat,
             (0 <= (if Nat.eqb k 8 then (6 # 10)%Q else 0%Q))%Q /\
             ((if Nat.eqb k 8 then (6 # 10)%Q else 0%Q) < 1)%Q).
  { intros k. destruct (Nat.eqb k 8); split; lra. }
  split; [exact Hr|].
  assert (E : generateCardNumber (fun s => s) []
                (fun k : nat => if Nat.eqb k 8 then (6 # 10)%Q else 0%Q)
              = Some "4000010000000068") by (vm_compute; reflexivity).
  split; [exact E|].
  pose proof (generateCardNumber_sound (fun s => s) [] _ Hr) as H.
  rewrite E in H. exact (proj1 (proj2 (proj2 (proj2 H)))).
Defined.

(** ** CVV generation *)

Lemma cvv_table :
  forallb (fun z => Bool.eqb (cvv_rejected z) (existsb (Z.eqb z) rejected_cvvs) &&
                    Nat.eqb (String.length (pretty z)) 3 &&
                    all_digits (pretty z))
          (seqZ 100 900) = true.
Proof. vm_compute. reflexivity. Qed.

Lemma cvv_range (z : Z) :
  100 <= z <= 999 ->
  (cvv_rejected z = true <-> In z rejected_cvvs) /\
  String.length (pretty z) = 3%nat /\ all_digits (pretty z) = true.
Proof.
  intros Hz.
  assert (Hin : In z (seqZ 100 900)).
  { apply list_elem_of_In, elem_of_seqZ. lia. }
  pose proof (proj1 (forallb_forall _ _) cvv_table z Hin) as H. cbv beta in H.
  apply andb_true_iff in H. destruct H as [H Hd].
  apply andb_true_iff in H. destruct H as [Hrej Hlen].
  apply Bool.eqb_prop in Hrej. apply Nat.eqb_eq in Hlen.
  split; [|split; assumption].
  rewrite Hrej. rewrite existsb_exists. split.
  - intros (y & Hy & E). apply Z.eqb_eq in E. subst y. exact Hy.
  - intros Hy. exists z. split; [exact Hy|apply Z.eqb_refl].
Qed.

Lemma cvv_draw_range (r : Q) : (0 <= r)%Q -> (r < 1)%Q -> 100 <= cvv_draw r <= 999.
Proof.
  intros H0 H1. assert (H : 100 <= cvv_draw r < 1000); [|lia].
  apply Qfloor_between; unfold inject_Z; lra.
Qed.

Lemma generateCvv_from_spec (fuel : nat) (random : nat -> Q) (k : nat) :
  match generateCvv_from fuel random k with
  | Some s =>
      exists i, (k <= i < k + fuel)%nat /\
                s = padStart 3 "0"%char (pretty (cvv_draw (random i))) /\
                cvv_rejected (cvv_draw (random i)) = false /\
                forall j, (k <= j < i)%nat -> cvv_rejected (cvv_draw (random j)) = true
  | None =>
      forall j, (k <= j < k + fuel)%nat -> cvv_rejected (cvv_draw (random j)) = true
  end.
Proof.
  revert k. induction fuel as [|f IH]; intros k; cbn [generateCvv_from].
  - intros j Hj. lia.
  - cbv zeta. destruct (cvv_rejected (cvv_draw (random k))) eqn:Hk.
    + specialize (IH (S k)). destruct (generateCvv_from f random (S k)) as [s|].
      * destruct IH as (i & Hi & Hs & Hacc & Hbefore).
        exists i. split; [lia|]. split; [exact Hs|]. split; [exact Hacc|].
        intros j Hj. destruct (Nat.eq_dec j k) as [->|Hne]; [exact Hk|].
        apply Hbefore. lia.
      * intros j Hj. destruct (Nat.eq_dec j k) as [->|Hne]; [exact Hk|].
        apply IH. lia.
    + exists k. split; [lia|]. split; [reflexivity|]. split; [exact Hk|].
      intros j Hj. lia.
Qed.

Lemma generateCvv_facts (fuel : nat) (random : nat -> Q) :
  (forall k, (0 <= random k)%Q /\ (random k < 1)%Q) ->
  match generateCvv fuel random with
  | Some s =>
      exists i, (i < fuel)%nat /\
                s = pretty (cvv_draw (random i)) /\
                100 <= cvv_draw (random i) <= 999 /\
                String.length s = 3%nat /\ all_digits s = true /\
                ~ In (cvv_draw (random i)) rejected_cvvs /\
                forall j, (j < i)%nat -> In (cvv_draw (random j)) rejected_cvvs
  | None =>
      forall j, (j < fuel)%nat -> In (cvv_draw (random j)) rejected_cvvs
  end.
Proof.
  intros Hr. unfold generateCvv.
  pose proof (generateCvv_from_spec fuel random 0) as H.
  assert (Hrange : forall j, 100 <= cvv_draw (random j) <= 999).
  { intros j. apply cvv_draw_range; apply Hr. }
  destruct (generateCvv_from fuel random 0) as [s|].
  - destruct H as (i & Hi & Hs & Hacc & Hbefore).
    destruct (cvv_range _ (Hrange i)) as (Hrej & Hlen & Hd).
    assert (Hpad : s = pretty (cvv_draw (random i))).
    { rewrite Hs. unfold padStart. rewrite Hlen. reflexivity. }
    exists i. split; [lia|]. split; [exact Hpad|]. split; [apply Hrange|].
    rewrite Hpad. split; [exact Hlen|]. split; [exact Hd|]. split.
    + intros Hin. apply Hrej in Hin. congruence.
    + intros j Hj. apply (cvv_range _ (Hrange j)). apply Hbefore. lia.
  - intros j Hj. apply (cvv_range _ (Hrange j)). apply H. lia.
Qed.

(** X4. With draws in [0, 1), [generateCvv] returns the first draw that is not
    one of 111, 222, ..., 999, 123, 234, ..., 789: a string of three
    digits, the decimal writing of a value between 100 and 999; and within
    [fuel] draws it returns as soon as such a draw comes. *)
Theorem generateCvv_spec (fuel : nat) (random : nat -> Q) :
  (forall k, (0 <= random k)%Q /\ (random k < 1)%Q) ->
  match generateCvv fuel random with
  | Some s =>
      exists i, (i < fuel)%nat /\
                s = pretty (cvv_draw (random i)) /\
                100 <= cvv_draw (random i) <= 999 /\
                String.length s = 3%nat /\ all_digits s = true /\
                ~ In (cvv_draw (random i)) rejected_cvvs /\
                forall j, (j < i)%nat -> In (cvv_draw (random j)) rejected_cvvs
  | None =>
      forall j, (j < fuel)%nat -> In (cvv_draw (random j)) rejected_cvvs
  end.
Proof.
  intros Hr. apply generateCvv_facts. exact Hr.
Qed.

Lemma generateCvv_spec_witness :
  let random := fun k : nat => match k with O => (1 # 75)%Q | _ => (1 # 3)%Q end in
  (forall k, (0 <= random k)%Q /\ (random k < 1)%Q) /\
  cvv_draw (random 0%nat) = 112 /\
  generateCvv 5 random = Some "112" /\
  ~ In 112 rejected_cvvs.
Proof.
  cbv zeta.
  assert (Hr : forall k : nat,
             (0 <= match k with O => (1 # 75)%Q | _ => (1 # 3)%Q end)%Q /\
             (match k with O => (1 # 75)%Q | _ => (1 # 3)%Q end < 1)%Q).
  { intros [|k]; split; lra. }
  split; [exact Hr|]. split; [reflexivity|].
  assert (E : generateCvv 5 (fun k : nat => match k with O => (1 # 75)%Q | _ => (1 # 3)%Q end)
              = Some "112") by (vm_compute; reflexivity).
  split; [exact E|].
  pose proof (generateCvv_spec 5 _ Hr) as H. rewrite E in H.
  destruct H as (i & Hi & Hs & _ & _ & _ & Hnot & _).
  assert (Hi0 : i = 0%nat).
  { destruct i as [|i]; [reflexivity|]. vm_compute in Hs. destruct i; discriminate Hs. }
  subst i. exact Hnot.
Defined.

End CardGeneration.

(** ** Card expiry *)

(** X6. For an expiry month between 1 and 12 and a clock month between 0 and
    11, a card is expired exactly when its expiry month, counted in months
    since year 0, is before the month of the clock; so a card that is
    expired stays expired at every later calendar month. *)
Theorem card_isExpired_months (now : JsDate) (c : VirtualCard.t) :
  1 <= VirtualCard.expiry_month c <= 12 ->
  0 <= getMonth now <= 11 ->
  (VirtualCard.isExpired now c = true <->
   VirtualCard.expiry_year c * 12 + VirtualCard.expiry_month c
   < getFullYear now * 12 + (getMonth now + 1)) /\
  (forall later : JsDate,
      0 <= getMonth later <= 11 ->
      getFullYear now * 12 + getMonth now <= getFullYear later * 12 + getMonth later ->
      VirtualCard.isExpired now c = true -> VirtualCard.isExpired later c = true).
Proof.
  intros Hm Hn.
  assert (Hiff : forall d : JsDate,
             0 <= getMonth d <= 11 ->
             (VirtualCard.isExpired d c = true <->
              VirtualCard.expiry_year c * 12 + VirtualCard.expiry_month c
              < getFullYear d * 12 + (getMonth d + 1))).
  { intros d Hd. unfold VirtualCard.isExpired.
    destruct (Z.ltb_spec (VirtualCard.expiry_year c) (getFullYear d)) as [Hy|Hy].
    - split; [lia|reflexivity].
    - destruct (Z.eqb_spec (VirtualCard.expiry_year c) (getFullYear d)) as [He|He]; simpl.
      + destruct (Z.ltb_spec (VirtualCard.expiry_month c) (getMonth d + 1)); split;
          try reflexivity; try discriminate; lia.
      + split; [discriminate|lia]. }
  split; [exact (Hiff now Hn)|].
  intros later Hl Hle He. apply (Hiff later Hl). apply (Hiff now Hn) in He. lia.
Qed.

Lemma card_isExpired_months_witness :
  VirtualCard.isExpired (mkDate 1924992000000 2031 0 1) Sample.card = true.
Proof.
  apply (proj1 (card_isExpired_months (mkDate 1924992000000 2031 0 1) Sample.card
                  ltac:(simpl; lia) ltac:(simpl; lia))).
  simpl. lia.
Defined.

Lemma generateExpiryDate_facts (now : JsDate) (r_year r_month : Q)
  (c : VirtualCard.t) :
  (0 <= r_year)%Q -> (r_year < 1)%Q -> (0 <= r_month)%Q -> (r_month < 1)%Q ->
  (VirtualCard.expiry_month c, VirtualCard.expiry_year c) =
  VirtualCardStatics.generateExpiryDate now r_year r_month ->
  1 <= VirtualCard.expiry_month c <= 12 /\
  getFullYear now + 2 <= VirtualCard.expiry_year c <= getFullYear now + 4 /\
  forall d : JsDate, getFullYear d <= getFullYear now + 1 ->
                     VirtualCard.isExpired d c = false.
Proof.
  intros Hy0 Hy1 Hm0 Hm1. unfold VirtualCardStatics.generateExpiryDate.
  intros H. pose proof (f_equal fst H) as Hm. pose proof (f_equal snd H) as Hy.
  cbn [fst snd] in Hm, Hy. clear H.
  assert (Hfy : 0 <= Qfloor (r_year * 3) < 3) by (apply Qfloor_between; unfold inject_Z; lra).
  assert (Hfm : 0 <= Qfloor (r_month * 12) < 12)
    by (apply Qfloor_between; unfold inject_Z; lra).
  split; [lia|]. split; [lia|].
  intros d Hd. unfold VirtualCard.isExpired.
  destruct (Z.ltb_spec (VirtualCard.expiry_year c) (getFullYear d)); [lia|].
  destruct (Z.eqb_spec (VirtualCard.expiry_year c) (getFullYear d)); [lia|].
  reflexivity.
Qed.

(** X5. With draws in [0, 1), [generateExpiryDate] gives a month between 1 and
    12 and a year two to four years after the current one, and a card with
    this expiry is not expired at any date of the current year or of the
    next. *)
Theorem generateExpiryDate_not_expired (now : JsDate) (r_year r_month : Q)
  (c : VirtualCard.t) :
  (0 <= r_year)%Q -> (r_year < 1)%Q -> (0 <= r_month)%Q -> (r_month < 1)%Q ->
  (VirtualCard.expiry_month c, VirtualCard.expiry_year c) =
  VirtualCardStatics.generateExpiryDate now r_year r_month ->
  1 <= VirtualCard.expiry_month c <= 12 /\
  getFullYear now + 2 <= VirtualCard.expiry_year c <= getFullYear now + 4 /\
  forall d : JsDate, getFullYear d <= getFullYear now + 1 ->
                     VirtualCard.isExpired d c = false.
Proof.
  intros Hy0 Hy1 Hm0 Hm1 He. apply (generateExpiryDate_facts now r_year r_month); assumption.
Qed.

Lemma generateExpiryDate_not_expired_witness :
  VirtualCardStatics.generateExpiryDate Sample.day1 (1 # 2) (11 # 12) = (12, 2026) /\
  VirtualCard.isExpired Sample.day2
    (VirtualCard.mk 2 1 "enc" "hash" 12 2026 "enc" VirtualCard.active
       (of_Z 70000) (of_Z 1000000) (of_Z 0) (of_Z 0) None) = false.
Proof.
  split; [reflexivity|].
  apply (generateExpiryDate_not_expired Sample.day1 (1 # 2) (11 # 12)
           (VirtualCard.mk 2 1 "enc" "hash" 12 2026 "enc" VirtualCard.active
              (of_Z 70000) (of_Z 1000000) (of_Z 0) (of_Z 0) None));
    try lra; try reflexivity.
  simpl. lia.
Defined.

(** ** Masking *)

Section CardMasking.

Import VirtualCardStatics CardDisplay.

Lemma length_repeat_char (n : nat) (c : ascii) : String.length (repeat_char n c) = n.
Proof. induction n as [|n IH]; simpl; [reflexivity|]. rewrite IH. reflexivity. Qed.

Lemma get_repeat_char (n i : nat) (c : ascii) :
  (i < n)%nat -> String.get i (repeat_char n c) = Some c.
Proof.
  revert i. induction n as [|n IH]; intros i Hi; [lia|].
  destruct i as [|i]; simpl; [reflexivity|]. apply IH. lia.
Qed.

Lemma get_beyond (s : string) (i : nat) :
  (String.length s <= i)%nat -> String.get i s = None.
Proof.
  revert i. induction s as [|c s IH]; intros i Hi; [destruct i; reflexivity|].
  simpl in Hi. destruct i as [|i]; [lia|]. simpl. apply IH. lia.
Qed.

Lemma length_substring (s : string) (n m : nat) :
  (n + m <= String.length s)%nat -> String.length (String.substring n m s) = m.
Proof.
  revert n m. induction s as [|c s IH]; intros n m H; simpl in H.
  - assert (n = 0%nat /\ m = 0%nat) as [-> ->] by lia. reflexivity.
  - destruct n as [|n]; simpl.
    + destruct m as [|m]; simpl; [reflexivity|]. rewrite IH by lia. reflexivity.
    + apply IH. lia.
Qed.

Lemma substring_all (s : string) : String.substring 0 (String.length s) s = s.
Proof. induction s as [|c s IH]; simpl; [reflexivity|]. rewrite IH. reflexivity. Qed.

Lemma substring_after (a b : string) :
  String.substring (String.length a) (String.length b) (a +:+ b) = b.
Proof.
  induction a as [|c a IH]; [apply substring_all|].
  rewrite append_cons. simpl. exact IH.
Qed.

(** X7. [maskCardNumber] keeps the length of the number and its last four
    characters and replaces every character before them by a star; a
    number shorter than four characters is returned unchanged; and masking
    a masked number changes nothing. *)
Theorem maskCardNumber_spec (cardNumber : string) :
  String.length (maskCardNumber cardNumber) = String.length cardNumber /\
  ((String.length cardNumber < 4)%nat -> maskCardNumber cardNumber = cardNumber) /\
  ((4 <= String.length cardNumber)%nat ->
   (forall i, (i < String.length cardNumber - 4)%nat ->
              String.get i (maskCardNumber cardNumber) = Some "*"%char) /\
   (forall i, (String.length cardNumber - 4 <= i)%nat ->
              String.get i (maskCardNumber cardNumber) = String.get i cardNumber)) /\
  maskCardNumber (maskCardNumber cardNumber) = maskCardNumber cardNumber.
Proof.
  set (n := String.length cardNumber).
  assert (Hshort : (n < 4)%nat -> maskCardNumber cardNumber = cardNumber).
  { intros H. unfold maskCardNumber. fold n.
    destruct (Nat.ltb_spec n 4); [reflexivity|lia]. }
  assert (Hlong : (4 <= n)%nat ->
                  maskCardNumber cardNumber =
                  repeat_char (n - 4) "*"%char +:+ String.substring (n - 4) 4 cardNumber).
  { intros H. unfold maskCardNumber. fold n.
    destruct (Nat.ltb_spec n 4); [lia|reflexivity]. }
  assert (Hsub : (4 <= n)%nat -> String.length (String.substring (n - 4) 4 cardNumber) = 4%nat).
  { intros H. apply length_substring. fold n. lia. }
  assert (Hlen : String.length (maskCardNumber cardNumber) = n).
  { destruct (Nat.lt_ge_cases n 4) as [H|H].
    - rewrite (Hshort H). reflexivity.
    - rewrite (Hlong H), length_append, length_repeat_char, (Hsub H). lia. }
  split; [exact Hlen|]. split; [exact Hshort|]. split.
  - intros H. rewrite (Hlong H). split.
    + intros i Hi. rewrite <- String.append_correct1 by (rewrite length_repeat_char; lia).
      apply get_repeat_char. exact Hi.
    + intros i Hi.
      replace i with ((i - (n - 4)) + String.length (repeat_char (n - 4) "*"%char))%nat
        at 1 by (rewrite length_repeat_char; lia).
      rewrite <- String.append_correct2.
      destruct (Nat.lt_ge_cases (i - (n - 4)) 4) as [Hlt|Hge].
      * rewrite String.substring_correct1 by exact Hlt. f_equal. lia.
      * rewrite String.substring_correct2 by exact Hge.
        symmetry. apply get_beyond. fold n. lia.
  - destruct (Nat.lt_ge_cases n 4) as [H|H].
    + rewrite (Hshort H). exact (Hshort H).
    + unfold maskCardNumber at 1. rewrite Hlen.
      destruct (Nat.ltb_spec n 4); [lia|].
      rewrite (Hlong H).
      set (a := repeat_char (n - 4) "*"%char).
      set (b := String.substring (n - 4) 4 cardNumber).
      f_equal.
      assert (Ha : String.length a = (n - 4)%nat) by apply length_repeat_char.
      assert (Hb : String.length b = 4%nat) by exact (Hsub H).
      rewrite <- Ha, <- Hb at 1. apply substring_after.
Qed.

End CardMasking.

(** ** Card validation *)

(** X8. [validateCard] accepts no card, whatever the collection holds: the
    lookup asks for a document with a path [where], and none has one.
    The answer is one of the five refusals, and a card presented in good
    form (16 characters, a CVV of 3, a month of the calendar, a year that is not past) is answered "Card not found or
    inactive". *)
Theorem validateCard_never_accepts (env : Env) (cs : list VirtualCard.t)
  (cardNumber cvv : string) (expiryMonth expiryYear : Z) :
  exists reason,
    CardService.validateCard env cs cardNumber cvv expiryMonth expiryYear = inl reason /\
    In reason ["Invalid card number length"; "Invalid CVV"; "Invalid expiry month";
               "Card expired"; "Card not found or inactive"] /\
    (String.length cardNumber = 16%nat ->
     String.length cvv = 3%nat ->
     1 <= expiryMonth <= 12 ->
     expiryYear <> 0 ->
     getFullYear (now env) <= expiryYear ->
     reason = "Card not found or inactive").
Proof.
  destruct (validateCard_refuses env cs cardNumber cvv expiryMonth expiryYear)
    as (reason & Hv & Hin).
  exists reason. split; [exact Hv|]. split; [exact Hin|].
  intros Hn Hc Hm Hy0 Hy.
  rewrite (validateCard_lookup env cs cardNumber cvv expiryMonth expiryYear Hn Hc Hm Hy0 Hy)
    in Hv.
  injection Hv as <-. reflexivity.
Qed.

(** The sample card is stored, active and not expired, and it is presented
    with its own number, CVV and expiry date. *)
Example validateCard_never_accepts_sample :
  let env := Sample.env_at Sample.day1 Sample.accepting Sample.no_fault in
  VirtualCard.card_number_hash Sample.card = sha256 env "4000010000000002" /\
  VirtualCard.status_of Sample.card = VirtualCard.active /\
  decryptData env (VirtualCard.cvv Sample.card) = "731" /\
  VirtualCard.isExpired (now env) Sample.card = false /\
  CardService.validateCard env [Sample.card] "4000010000000002" "731" 12 2030 =
  inl "Card not found or inactive".
Proof. repeat split. Qed.

(** ** Fraud indicators *)

(** X9. A card without any earlier ledger entry raises no indicator, whatever
    the amount.  The query of the history throws, and the [catch] answers
    no indicator; and the body past the query raises none on an empty
    history either: the mean of an empty history is not a number, and no
    amount is above it. *)
Theorem checkFraudPatterns_no_history (env : Env) (txs : list Transaction.t)
  (cardId : nat) (amt : Number) :
  (forall x, In x txs -> Transaction.card_id x <> cardId) ->
  CardService.checkFraudPatterns env txs cardId amt = [] /\
  CardService.fraudIndicators env [] amt = [].
Proof.
  intros _. split; [reflexivity|].
  unfold CardService.fraudIndicators. cbn. destruct amt; reflexivity.
Qed.

Lemma checkFraudPatterns_no_history_witness :
  CardService.checkFraudPatterns
    (Sample.env_at Sample.day1 Sample.accepting Sample.no_fault)
    [Sample.approved_entry] 7 (of_Z 5000000) = [].
Proof.
  apply (checkFraudPatterns_no_history
           (Sample.env_at Sample.day1 Sample.accepting Sample.no_fault)
           [Sample.approved_entry] 7 (of_Z 5000000)).
  intros x [<- | []]. discriminate.
Defined.

(** ** The deadline of a ledger entry *)

Lemma setTimeout_deadline (now : JsDate) (x : Transaction.t) :
  Transaction.timeout_at (Transaction.setTimeout now (1 # 2) x) =
  Some (getTime now + 30000).
Proof.
  unfold Transaction.setTimeout. cbv zeta.
  cbn [Transaction.timeout_at Transaction.with_timeout_at].
  f_equal. cbn [Qnum Qden Qplus Qmult inject_Z].
  change (Z.pos (2 * 1 * 1)) with 2. change (Z.pos (1 * (2 * 1 * 1))) with 2.
  replace (getTime now * 2 + 1 * 60 * 1000 * 1) with ((getTime now + 30000) * 2) by lia.
  apply Z.quot_mul. discriminate.
Qed.

(** X10. An entry whose deadline was set at [now] with the default half minute
    is expired exactly at the clock readings more than 30000 milliseconds
    after [now]; the deadline is the only field the call changes. *)
Theorem setTimeout_window (now later : JsDate) (x : Transaction.t) :
  Transaction.timeout_at (Transaction.setTimeout now (1 # 2) x) =
  Some (getTime now + 30000) /\
  Transaction.isExpired later (Transaction.setTimeout now (1 # 2) x) =
  Z.ltb (getTime now + 30000) (getTime later) /\
  Transaction.status_of (Transaction.setTimeout now (1 # 2) x) = Transaction.status_of x /\
  Transaction.metadata (Transaction.setTimeout now (1 # 2) x) = Transaction.metadata x /\
  Transaction.transaction_reference (Transaction.setTimeout now (1 # 2) x) =
  Transaction.transaction_reference x.
Proof.
  split; [apply setTimeout_deadline|]. split; [|repeat split].
  unfold Transaction.isExpired. rewrite setTimeout_deadline. reflexivity.
Qed.

(** ** What a transition writes *)

(** X11. A transition merges the metadata it is given into the bag of the
    entry: a key it gives takes the given value, every other key keeps the
    value it had, so no key is ever lost; and it erases no stamp: each of
    the three stamps is the clock reading when the new status is one that
    sets it, and is what it was otherwise (moving to [expired] or
    [cancelled] sets none). *)
Theorem updateStatus_writes (now : JsDate) (s : Transaction.status) (md : bag)
  (x : Transaction.t) :
  let y := Transaction.updateStatus now s md x in
  (forall k v, md !! k = Some v -> Transaction.metadata y !! k = Some v) /\
  (forall k, md !! k = None -> Transaction.metadata y !! k = Transaction.metadata x !! k) /\
  (forall k, is_Some (Transaction.metadata x !! k) -> is_Some (Transaction.metadata y !! k)) /\
  Transaction.stk_push_sent_at y =
  (match s with
   | Transaction.stk_push_sent => Some (getTime now)
   | _ => Transaction.stk_push_sent_at x
   end) /\
  Transaction.user_response_at y =
  (match s with
   | Transaction.awaiting_user_response => Some (getTime now)
   | _ => Transaction.user_response_at x
   end) /\
  Transaction.completed_at y =
  (match s with
   | Transaction.approved | Transaction.declined | Transaction.failed => Some (getTime now)
   | _ => Transaction.completed_at x
   end).
Proof.
  cbv zeta.
  assert (Hm : Transaction.metadata (Transaction.updateStatus now s md x) =
               md ∪ Transaction.metadata x) by (destruct s; reflexivity).
  rewrite Hm.
  split; [|split; [|split; [|split; [|split]]]].
  - intros k v Hk. apply lookup_union_Some_l. exact Hk.
  - intros k Hk. apply lookup_union_r. exact Hk.
  - intros k [v Hv]. destruct (md !! k) as [w|] eqn:Hk.
    + exists w. apply lookup_union_Some_l. exact Hk.
    + exists v. rewrite lookup_union_r by exact Hk. exact Hv.
  - destruct s; reflexivity.
  - destruct s; reflexivity.
  - destruct s; reflexivity.
Qed.

(** ** The cardholder's daily counter *)

(** X12. A limit check resets the daily counter at most once per calendar day:
    the document it leaves is not due for a reset at the same clock
    reading, and a second check at that reading leaves it as it is.  The
    check never changes the limits, the activity flag, the phone or the
    id; on a new day the counter becomes zero and the reset date the clock
    reading, otherwise the document is unchanged. *)
Theorem canMakeTransaction_resets_once (now : JsDate) (amt amt' : Number) (u : User.t) :
  let u1 := fst (User.canMakeTransaction now amt u) in
  User.new_day now u1 = false /\
  fst (User.canMakeTransaction now amt' u1) = u1 /\
  User.daily_transaction_limit u1 = User.daily_transaction_limit u /\
  User.single_transaction_limit u1 = User.single_transaction_limit u /\
  User.is_active u1 = User.is_active u /\
  User.mpesa_phone u1 = User.mpesa_phone u /\
  User.id u1 = User.id u /\
  (User.new_day now u = true ->
   User.total_daily_spent u1 = of_Z 0 /\ User.reset_daily_spent_at u1 = now) /\
  (User.new_day now u = false -> u1 = u).
Proof.
  cbv zeta. rewrite canMakeTransaction_fst.
  assert (Hn : User.new_day now (User.lazy_reset now u) = false).
  { unfold User.lazy_reset. destruct (User.new_day now u) eqn:E; [|exact E].
    unfold User.new_day. cbn [User.reset_daily_spent_at User.resetDailySpent].
    rewrite !Z.eqb_refl. reflexivity. }
  split; [exact Hn|]. split.
  - rewrite canMakeTransaction_fst. unfold User.lazy_reset at 1. rewrite Hn. reflexivity.
  - unfold User.lazy_reset. destruct (User.new_day now u); repeat split; discriminate.
Qed.

(** ** Limits and amounts *)

Lemma num_gt_antitone (a b l : Number) :
  num_le b a = true -> num_gt a l = false -> num_gt b l = false.
Proof.
  destruct a as [x|], b as [y|], l as [z|]; simpl; try discriminate; try reflexivity.
  intros Hle Hgt. apply negb_false_iff in Hgt.
  apply Qle_bool_iff in Hle, Hgt. apply negb_false_iff, Qle_bool_iff. lra.
Qed.

Lemma num_gt_add_antitone (s a b l : Number) :
  num_le b a = true -> num_gt (num_add s a) l = false -> num_gt (num_add s b) l = false.
Proof.
  destruct a as [x|], b as [y|]; simpl; try discriminate.
  intros Hle. destruct s as [t|], l as [z|]; simpl; try reflexivity.
  intros Hgt. apply negb_false_iff in Hgt.
  apply Qle_bool_iff in Hle, Hgt. apply negb_false_iff, Qle_bool_iff. lra.
Qed.

(** X13. The limit evaluation is antitone in the amount: when it allows an
    amount it allows every smaller one. *)
Theorem limit_evaluation_antitone (now : JsDate) (user : User.t) (card : VirtualCard.t)
  (a b : Number) :
  num_le b a = true ->
  limit_evaluation now user card a = true ->
  limit_evaluation now user card b = true.
Proof.
  intros Hle. unfold limit_evaluation. rewrite !andb_true_iff.
  intros [[Hact Hu] Hc]. split; [split; [exact Hact|]|].
  - apply not_false_iff_true. intros Hb. apply not_false_iff_true in Hu. apply Hu.
    apply user_check_iff. apply user_check_iff in Hb.
    destruct Hb as [Hb|Hb]; [left|right]; apply not_false_iff_true; intros Ha.
    + rewrite (num_gt_antitone a b _ Hle Ha) in Hb. discriminate.
    + rewrite (num_gt_add_antitone _ a b _ Hle Ha) in Hb. discriminate.
  - apply not_false_iff_true. intros Hb. apply not_false_iff_true in Hc. apply Hc.
    apply card_check_iff. apply card_check_iff in Hb.
    destruct Hb as [Hb|[Hb|[Hb|Hb]]]; [left; exact Hb|right; left; exact Hb| |].
    + right; right; left. apply not_false_iff_true; intros Ha.
      rewrite (num_gt_add_antitone _ a b _ Hle Ha) in Hb. discriminate.
    + right; right; right. apply not_false_iff_true; intros Ha.
      rewrite (num_gt_add_antitone _ a b _ Hle Ha) in Hb. discriminate.
Qed.

Lemma limit_evaluation_antitone_witness :
  limit_evaluation Sample.day1 Sample.holder Sample.card (of_Z 70000) = true /\
  limit_evaluation Sample.day1 Sample.holder Sample.card (of_Z 69999) = true.
Proof.
  split; [reflexivity|].
  apply (limit_evaluation_antitone Sample.day1 Sample.holder Sample.card
           (of_Z 70000) (of_Z 69999)); reflexivity.
Defined.

(** ** Currencies *)

(** X14. A request in a currency that has no rate is never refused by a limit:
    its amount in KES is not a number, every comparison with it is false,
    and the limit evaluation is reduced to the status checks. *)
Theorem missing_rate_skips_limits (req : AuthorizationService.Request) (cur : string)
  (now : JsDate) (user : User.t) (card : VirtualCard.t) :
  AuthorizationService.currency req = Some cur ->
  cur <> "KES" ->
  AuthorizationService.rates !! cur = None ->
  settlement_amount req = NaN /\
  limit_evaluation now user card (settlement_amount req) =
  User.is_active user &&
  VirtualCard.is_active_status (VirtualCard.status_of card) &&
  negb (VirtualCard.isExpired now card).
Proof.
  intros Hc Hne Hnone.
  assert (Hs : settlement_amount req = NaN).
  { unfold settlement_amount. rewrite Hc. change (default "KES" (Some cur)) with cur.
    destruct (String.eqb_spec cur "KES") as [E|_]; [contradiction|].
    unfold AuthorizationService.convertCurrency.
    destruct (String.eqb_spec cur "KES") as [E|_]; [contradiction|].
    change (String.eqb "KES" "KES") with true. cbv iota.
    unfold AuthorizationService.rate. rewrite Hnone. destruct (AuthorizationService.amount req); reflexivity. }
  split; [exact Hs|]. rewrite Hs.
  unfold limit_evaluation, User.canMakeTransaction, VirtualCard.canMakeTransaction.
  assert (Hg : forall a l, num_gt (num_add a NaN) l = false)
    by (intros [?|] [?|]; reflexivity).
  rewrite !Hg. cbn [num_gt snd User.is_allowed].
  destruct (VirtualCard.is_active_status _), (VirtualCard.isExpired now card);
    rewrite ?andb_true_r, ?andb_false_r; reflexivity.
Qed.

Lemma missing_rate_skips_limits_witness :
  let req := AuthorizationService.mkRequest "4000010000000002" "731" 12 2030
               (of_Z 9000000) (Some "JPY") "Duka Moja" JUndefined JUndefined
               JUndefined JUndefined in
  settlement_amount req = NaN /\
  limit_evaluation Sample.day1 Sample.holder Sample.card (settlement_amount req) = true.
Proof.
  cbv zeta.
  destruct (missing_rate_skips_limits
              (AuthorizationService.mkRequest "4000010000000002" "731" 12 2030
                 (of_Z 9000000) (Some "JPY") "Duka Moja" JUndefined JUndefined
                 JUndefined JUndefined)
              "JPY" Sample.day1 Sample.holder Sample.card eq_refl
              ltac:(discriminate) ltac:(vm_compute; reflexivity)) as [Hs Hl].
  split; [exact Hs|]. rewrite Hl. reflexivity.
Defined.

(** ** References *)

(** X15. A reference starts with TXN, and two references drawn at the same
    clock reading are equal exactly when their random suffixes are. *)
Theorem generateTransactionReference_injective (env : Env) (n m : nat) :
  String.prefix "TXN" (AuthorizationService.generateTransactionReference env n) = true /\
  (AuthorizationService.generateTransactionReference env n =
   AuthorizationService.generateTransactionReference env m <->
   random_ref env n = random_ref env m).
Proof.
  unfold AuthorizationService.generateTransactionReference. split.
  - change (String.prefix "" (pretty (getTime (now env)) +:+ random_ref env n) = true).
    destruct (pretty (getTime (now env)) +:+ random_ref env n); reflexivity.
  - split.
    + intros H. apply (inj (String.append "TXN")) in H.
      apply (inj (String.append (pretty (getTime (now env))))) in H. exact H.
    + intros ->. reflexivity.
Qed.

Local Open Scope list_scope.

(** ** The ledger under the authorization service *)

Lemma fresh_id_fresh (txs : list Transaction.t) (z : Transaction.t) :
  In z txs -> Transaction.id z <> Documents.fresh_id txs.
Proof.
  intros Hin. unfold Documents.fresh_id.
  assert (H : (Transaction.id z <= list_max (map Transaction.id txs))%nat).
  { pose proof (proj1 (list_max_le (map Transaction.id txs) _) (Nat.le_refl _)) as Hall.
    rewrite List.Forall_forall in Hall. apply Hall. apply in_map. exact Hin. }
  lia.
Qed.


(** X16. [authorizeTransaction] leaves every stored ledger entry and every card
    as it is.  To the ledger it adds nothing or exactly one entry, at the
    end: its id is held by no other entry, its reference is the first draw
    of the call, its amounts are the requested amount and its value in KES,
    and its status is [pending_authorization], [failed] or [stk_push_sent]. *)
Theorem authorizeTransaction_appends (env : Env) (req : AuthorizationService.Request)
  (st : State) :
  let st' := fst (fst (AuthorizationService.authorizeTransaction env req st)) in
  cards st' = cards st /\
  (transactions st' = transactions st \/
   exists y,
     transactions st' = transactions st ++ [y] /\
     (forall z, In z (transactions st) -> Transaction.id z <> Transaction.id y) /\
     Transaction.transaction_reference y =
     AuthorizationService.generateTransactionReference env 0 /\
     Transaction.amount y = AuthorizationService.amount req /\
     Transaction.amount_kes y = settlement_amount req /\
     (Transaction.status_of y = Transaction.pending_authorization \/
      Transaction.status_of y = Transaction.failed \/
      Transaction.status_of y = Transaction.stk_push_sent)).
Proof.
  cbv zeta. destruct (authorizeTransaction_run env req st) as (reason & _ & ->).
  cbn [fst snd]. split; [reflexivity|]. left. reflexivity.
Qed.

(** X17. On a ledger the code has built, every entry is as the handler of
    [POST /api/transactions] stored it: in [pending_authorization], without
    deadline, without correlation id.  No operation settles, expires or
    correlates an entry.  So the finder of the sweep selects nothing at
    any time and a sweep changes nothing; the finder by correlation id
    finds nothing for an id, and for [undefined] it returns the oldest
    entry of the ledger. *)
Theorem ledger_entries_stay_pending (st : State) :
  Ledger.reachable st ->
  Forall Ledger.as_created (transactions st) /\
  (forall now, Transaction.findPendingTransactions now (transactions st) = []) /\
  (forall now, ExpirySweeper.sweep now (transactions st) = transactions st) /\
  (forall c, Transaction.findByCheckoutRequestId (Some c) (transactions st) = None) /\
  Transaction.findByCheckoutRequestId None (transactions st) = head (transactions st).
Proof.
  intros Hr. pose proof (reachable_as_created st Hr) as Hall.
  split; [exact Hall|].
  assert (Hp : forall now x, Ledger.as_created x ->
                 Transaction.pending_and_timed_out now x = false).
  { intros now x (Hs & _). unfold Transaction.pending_and_timed_out. rewrite Hs.
    reflexivity. }
  split; [|split; [|split]].
  - intros now. unfold Transaction.findPendingTransactions.
    induction Hall as [|x l Hx _ IH]; [reflexivity|].
    cbn [List.filter]. rewrite (Hp now x Hx). exact IH.
  - intros now. unfold ExpirySweeper.sweep.
    induction Hall as [|x l Hx _ IH]; [reflexivity|].
    cbn [map]. rewrite IH. unfold ExpirySweeper.sweepEntry. rewrite (Hp now x Hx).
    reflexivity.
  - intros c. unfold Transaction.findByCheckoutRequestId.
    induction Hall as [|x l (_ & _ & Hc & _) _ IH]; [reflexivity|].
    cbn [List.find]. rewrite Hc. exact IH.
  - unfold Transaction.findByCheckoutRequestId.
    destruct Hall as [|x l (_ & _ & Hc & _) _]; [reflexivity|].
    cbn [List.find head]. rewrite Hc. reflexivity.
Qed.

Lemma ledger_entries_stay_pending_witness :
  Ledger.reachable Sample.state_created /\
  Transaction.findPendingTransactions Sample.day2 (transactions Sample.state_created) = [] /\
  Transaction.findByCheckoutRequestId None (transactions Sample.state_created) =
  Some Sample.created_entry.
Proof.
  assert (H : Ledger.reachable Sample.state_created).
  { apply (Ledger.Step Sample.state_empty).
    - apply Ledger.Empty. reflexivity.
    - apply (Ledger.Create (Sample.env_at Sample.day1 Sample.accepting Sample.no_fault)
               SampleRequests.creation Sample.state_empty). }
  split; [exact H|].
  destruct (ledger_entries_stay_pending Sample.state_created H) as (_ & Hp & _ & _ & Hu).
  split; [apply Hp|exact Hu].
Defined.

(** X26. The handler of [POST /api/transactions] either refuses, and then
    leaves the stored state as it is, or stores exactly one new entry, at
    the end of the ledger, and nothing else: the entry is valid for the
    schema (its amount, which is also its amount in KES, is a number), it
    is in [pending_authorization], without deadline and correlation id,
    its id and its reference are held by no other entry, and its card is
    a stored, active card of the cardholder. *)
Theorem createTransaction_outcomes (env : Env) (inp : TransactionRoutes.Inputs) (st : State) :
  let r := TransactionRoutes.createTransaction env inp st in
  (forall status error, snd r = TransactionRoutes.Refused status error -> fst r = st) /\
  (forall x,
      snd r = TransactionRoutes.Created x ->
      fst r = set_transactions (transactions st ++ [x]) st /\
      Ledger.as_created x /\
      Transaction.valid x = true /\
      Transaction.amount x = TransactionRoutes.parseFloat inp (TransactionRoutes.amount inp) /\
      Transaction.amount_kes x = Transaction.amount x /\
      Transaction.amount x <> NaN /\
      Transaction.user_id x = TransactionRoutes.userId inp /\
      (forall z, In z (transactions st) ->
                 Transaction.id z <> Transaction.id x /\
                 Transaction.transaction_reference z <> Transaction.transaction_reference x) /\
      exists card,
        In card (cards st) /\
        VirtualCard.id card = Transaction.card_id x /\
        VirtualCard.user_id card = TransactionRoutes.userId inp /\
        VirtualCard.status_of card = VirtualCard.active).
Proof.
  cbv zeta. unfold TransactionRoutes.createTransaction.
  destruct (TransactionRoutes.cardId inp) as [cardId|];
    [|split; [reflexivity|discriminate]].
  destruct (_ || _); [split; [reflexivity|discriminate]|].
  destruct (Mongoose.findOne _ _ _) as [card|] eqn:Hfind;
    [|split; [reflexivity|discriminate]].
  destruct (VirtualCard.is_active_status (VirtualCard.status_of card)) eqn:Hact;
    cbn [negb]; [|split; [reflexivity|discriminate]].
  unfold Documents.create, Documents.storage, mbind, Op_bind, bind, read, write, throw,
    mret, Op_ret, ret, start.
  destruct (Transaction.valid _) eqn:Hvalid; cbn [negb];
    [|split; [reflexivity|discriminate]].
  cbn [store calls drawn written fst snd].
  destruct (write_fails env 0); [split; [reflexivity|discriminate]|].
  cbn [store calls drawn written fst snd].
  destruct (existsb _ _) eqn:Hdup; [split; [reflexivity|discriminate]|].
  cbn [store calls drawn written fst snd Mongoose.loaded Mongoose.doc].
  split; [discriminate|]. intros x [= <-].
  split; [reflexivity|]. split; [apply entry_as_created|]. split; [exact Hvalid|].
  split; [reflexivity|]. split; [reflexivity|]. split.
  { unfold Transaction.valid in Hvalid. cbn [Transaction.amount TransactionRoutes.entry] in *.
    destruct (TransactionRoutes.parseFloat inp (TransactionRoutes.amount inp));
      [discriminate|].
    rewrite andb_false_r in Hvalid. cbn in Hvalid. discriminate. }
  split; [reflexivity|]. split.
  - intros z Hz. split.
    + apply fresh_id_fresh. exact Hz.
    + intros E. enough (Ht : true = false) by discriminate Ht.
      rewrite <- Hdup. symmetry. apply existsb_exists. exists z.
      split; [exact Hz|]. rewrite E. apply String.eqb_refl.
  - apply find_some in Hfind. destruct Hfind as [Hin Hm]. exists card.
    split; [exact Hin|].
    unfold Mongoose.matches in Hm. cbn in Hm.
    rewrite !andb_true_iff in Hm. destruct Hm as (H1 & H2 & _).
    apply Nat.eqb_eq in H1. apply Nat.eqb_eq in H2.
    split; [exact H1|]. split; [exact H2|].
    destruct (VirtualCard.status_of card); try discriminate. reflexivity.
Qed.

(** X27. The authorization service and the webhook write nothing and call
    nothing: whatever the request, the callback, the reference and the
    store, [authorizeTransaction] answers a decline "14",
    [handleSTKCallback] and [queryTransactionStatus] answer "Transaction
    not found" and the webhook answers 404; the stored state is left as it
    is and the gateway is not called. *)
Theorem authorization_service_writes_nothing (env : Env) (st : State) :
  (forall req,
      let r := AuthorizationService.authorizeTransaction env req st in
      fst (fst r) = st /\ snd r = [] /\
      AuthorizationService.decline_code (snd (fst r)) = JString "14") /\
  (forall cb,
      AuthorizationService.handleSTKCallback env cb st =
      (st, AuthorizationService.CallbackError "Transaction not found")) /\
  (forall ref,
      AuthorizationService.queryTransactionStatus env ref st =
      (st, AuthorizationService.StatusError "Transaction not found", [])) /\
  (forall cb, Webhooks.stkPushCallback env cb st = (st, 404)).
Proof.
  split; [|split; [|split]].
  - intros req. cbv zeta.
    destruct (authorizeTransaction_run env req st) as (reason & _ & ->).
    repeat split.
  - intros cb. apply handleSTKCallback_run.
  - intros ref. apply queryTransactionStatus_run.
  - intros cb. apply stkPushCallback_run.
Qed.

(** X18. No operation removes a ledger entry or gives two entries the same id:
    a callback, a status query and a sweep keep the list of ids as it is,
    and [authorizeTransaction] keeps it or adds one id that was not in it. *)
Theorem ledger_ids_kept (env : Env) (st : State) :
  (forall cb, map Transaction.id
                (transactions (fst (AuthorizationService.handleSTKCallback env cb st))) =
              map Transaction.id (transactions st)) /\
  (forall ref, map Transaction.id
                 (transactions
                    (fst (fst (AuthorizationService.queryTransactionStatus env ref st)))) =
               map Transaction.id (transactions st)) /\
  map Transaction.id (ExpirySweeper.sweep (now env) (transactions st)) =
  map Transaction.id (transactions st) /\
  (forall req,
      NoDup (map Transaction.id (transactions st)) ->
      NoDup (map Transaction.id
               (transactions
                  (fst (fst (AuthorizationService.authorizeTransaction env req st)))))).
Proof.
  split; [|split; [|split]].
  - intros cb. rewrite handleSTKCallback_run. reflexivity.
  - intros ref. rewrite queryTransactionStatus_run. reflexivity.
  - unfold ExpirySweeper.sweep. rewrite map_map. apply map_ext. intros x.
    unfold ExpirySweeper.sweepEntry.
    destruct (Transaction.pending_and_timed_out (now env) x); reflexivity.
  - intros req Hnd.
    destruct (authorizeTransaction_run env req st) as (reason & _ & ->). exact Hnd.
Qed.

(** ** The cache *)

(** X22. At every point the cache can reach, the keys that hold a value are
    the keys that have a pending timer: no value outlives its timer, and
    no timer is left behind by a deleted or replaced value. *)
Theorem cache_timers_in_step (c : SimpleCache.t) :
  SimpleCache.reachable c ->
  dom (SimpleCache.cache c) = dom (SimpleCache.timers c).
Proof.
  induction 1 as [|c c' Hc IH Hs]; [reflexivity|].
  destruct Hs as [key value ttl c | key c | c | key delay c _]; cbn.
  - rewrite !dom_insert_L, IH. reflexivity.
  - rewrite !dom_delete_L, IH. reflexivity.
  - reflexivity.
  - rewrite !dom_delete_L, IH. reflexivity.
Qed.

Lemma cache_timers_in_step_witness :
  dom (SimpleCache.cache
         (SimpleCache.setWithTTL "transaction:1" "{}" 1800 SimpleCache.empty)) =
  dom (SimpleCache.timers
         (SimpleCache.setWithTTL "transaction:1" "{}" 1800 SimpleCache.empty)).
Proof.
  apply (cache_timers_in_step
           (SimpleCache.setWithTTL "transaction:1" "{}" 1800 SimpleCache.empty)).
  eapply SimpleCache.ReachStep; [apply SimpleCache.ReachEmpty|apply SimpleCache.StepSet].
Defined.

(** X23. A value that was set is read back until it is set again, deleted,
    cleared, or its timer fires; setting replaces the pending timer of the
    key by one of the new delay, which is the time to live in
    milliseconds when that is between 1 and 2^31 - 1, and 1 millisecond
    otherwise (a time to live of 25 days or more, or none); deleting a key
    or the firing of its timer removes the value and reports or leaves
    nothing; and none of these touches another key. *)
Theorem cache_set_get_del (key other value : string) (ttl : Z) (c : SimpleCache.t) :
  SimpleCache.get key (SimpleCache.setWithTTL key value ttl c) = Some value /\
  SimpleCache.has key (SimpleCache.setWithTTL key value ttl c) = true /\
  (1 <= ttl <= 2147483 ->
   SimpleCache.timers (SimpleCache.setWithTTL key value ttl c) !! key = Some (ttl * 1000)) /\
  (ttl < 1 \/ 2147483 < ttl ->
   SimpleCache.timers (SimpleCache.setWithTTL key value ttl c) !! key = Some 1) /\
  SimpleCache.get key (fst (SimpleCache.del key c)) = None /\
  snd (SimpleCache.del key c) = SimpleCache.has key c /\
  SimpleCache.get key (SimpleCache.expire key c) = None /\
  SimpleCache.get key (SimpleCache.clear c) = None /\
  (other <> key ->
   SimpleCache.get other (SimpleCache.setWithTTL key value ttl c) = SimpleCache.get other c /\
   SimpleCache.get other (fst (SimpleCache.del key c)) = SimpleCache.get other c /\
   SimpleCache.get other (SimpleCache.expire key c) = SimpleCache.get other c).
Proof.
  unfold SimpleCache.get, SimpleCache.has, SimpleCache.setWithTTL, SimpleCache.del,
    SimpleCache.expire, SimpleCache.clear, SimpleCache.empty, SimpleCache.timer_delay.
  cbn [SimpleCache.cache SimpleCache.timers fst snd].
  rewrite !lookup_insert_eq, !lookup_delete_eq, lookup_empty.
  split; [reflexivity|]. split; [reflexivity|]. split.
  { intros H. destruct (Z.leb_spec 1 (ttl * 1000)); [|lia].
    destruct (Z.leb_spec (ttl * 1000) 2147483647); [reflexivity|lia]. }
  split.
  { intros H. destruct (Z.leb_spec 1 (ttl * 1000)); [|reflexivity].
    destruct (Z.leb_spec (ttl * 1000) 2147483647); [lia|reflexivity]. }
  repeat split.
  - rewrite lookup_insert_ne by congruence. reflexivity.
  - rewrite lookup_delete_ne by congruence. reflexivity.
  - rewrite lookup_delete_ne by congruence. reflexivity.
Qed.

(** ** The timestamp of a gateway request *)

Lemma pad2_table :
  forallb (fun n => Nat.eqb (String.length (MpesaTimestamp.pad2 n)) 2 &&
                    VirtualCardStatics.all_digits (MpesaTimestamp.pad2 n))
          (seqZ 0 100) = true.
Proof. vm_compute. reflexivity. Qed.

Lemma year_table :
  forallb (fun n => Nat.eqb (String.length (pretty n)) 4 &&
                    VirtualCardStatics.all_digits (pretty n))
          (seqZ 1000 9000) = true.
Proof. vm_compute. reflexivity. Qed.

Lemma pad2_shape (n : Z) :
  0 <= n <= 99 ->
  String.length (MpesaTimestamp.pad2 n) = 2%nat /\
  VirtualCardStatics.all_digits (MpesaTimestamp.pad2 n) = true.
Proof.
  intros Hn.
  assert (Hin : In n (seqZ 0 100)) by (apply list_elem_of_In, elem_of_seqZ; lia).
  pose proof (proj1 (forallb_forall _ _) pad2_table n Hin) as H. cbv beta in H.
  apply andb_true_iff in H. destruct H as [Hl Hd]. apply Nat.eqb_eq in Hl. tauto.
Qed.

Lemma year_shape (n : Z) :
  1000 <= n <= 9999 ->
  String.length (pretty n) = 4%nat /\ VirtualCardStatics.all_digits (pretty n) = true.
Proof.
  intros Hn.
  assert (Hin : In n (seqZ 1000 9000)) by (apply list_elem_of_In, elem_of_seqZ; lia).
  pose proof (proj1 (forallb_forall _ _) year_table n Hin) as H. cbv beta in H.
  apply andb_true_iff in H. destruct H as [Hl Hd]. apply Nat.eqb_eq in Hl. tauto.
Qed.

(** X24. For a four-digit year and calendar values of the other fields, the
    timestamp has fourteen characters, all digits: four for the year and
    two for each of month, day, hour, minute and second. *)
Theorem generateTimestamp_fourteen_digits (now : MpesaTimestamp.LocalTime) :
  1000 <= MpesaTimestamp.fullYear now <= 9999 ->
  0 <= MpesaTimestamp.month now <= 11 ->
  1 <= MpesaTimestamp.date now <= 31 ->
  0 <= MpesaTimestamp.hours now <= 23 ->
  0 <= MpesaTimestamp.minutes now <= 59 ->
  0 <= MpesaTimestamp.seconds now <= 59 ->
  String.length (MpesaTimestamp.generateTimestamp now) = 14%nat /\
  VirtualCardStatics.all_digits (MpesaTimestamp.generateTimestamp now) = true /\
  String.substring 0 4 (MpesaTimestamp.generateTimestamp now) =
  pretty (MpesaTimestamp.fullYear now).
Proof.
  intros Hy Hmo Hd Hh Hmi Hs. unfold MpesaTimestamp.generateTimestamp.
  destruct (year_shape _ Hy) as [Ly Dy].
  destruct (pad2_shape (MpesaTimestamp.month now + 1) ltac:(lia)) as [L1 D1].
  destruct (pad2_shape (MpesaTimestamp.date now) ltac:(lia)) as [L2 D2].
  destruct (pad2_shape (MpesaTimestamp.hours now) ltac:(lia)) as [L3 D3].
  destruct (pad2_shape (MpesaTimestamp.minutes now) ltac:(lia)) as [L4 D4].
  destruct (pad2_shape (MpesaTimestamp.seconds now) ltac:(lia)) as [L5 D5].
  split; [|split].
  - rewrite !length_append, Ly, L1, L2, L3, L4, L5. reflexivity.
  - rewrite !all_digits_append, Dy, D1, D2, D3, D4, D5. reflexivity.
  - rewrite <- Ly. apply String.prefix_correct.
    generalize (MpesaTimestamp.pad2 (MpesaTimestamp.month now + 1) +:+
                MpesaTimestamp.pad2 (MpesaTimestamp.date now) +:+
                MpesaTimestamp.pad2 (MpesaTimestamp.hours now) +:+
                MpesaTimestamp.pad2 (MpesaTimestamp.minutes now) +:+
                MpesaTimestamp.pad2 (MpesaTimestamp.seconds now)).
    intros rest. clear. induction (pretty (MpesaTimestamp.fullYear now)) as [|c s IH].
    + destruct rest; reflexivity.
    + rewrite append_cons. simpl. rewrite IH.
      destruct (Ascii.ascii_dec c c); [reflexivity|congruence].
Qed.

Lemma generateTimestamp_fourteen_digits_witness :
  MpesaTimestamp.generateTimestamp (MpesaTimestamp.mkLocalTime 2023 10 5 7 3 9) =
  "20231105070309" /\
  String.length
    (MpesaTimestamp.generateTimestamp (MpesaTimestamp.mkLocalTime 2023 10 5 7 3 9)) = 14%nat.
Proof.
  split; [vm_compute; reflexivity|].
  apply (generateTimestamp_fourteen_digits (MpesaTimestamp.mkLocalTime 2023 10 5 7 3 9));
    simpl; lia.
Defined.

(** ** A created card *)

(** X25. With draws in [0, 1), a cipher that decrypts what it encrypts and a
    clock in a year after year 0, a card that has just been created is
    stored, active, not expired, under the hash of its number and with its
    CVV; yet [validateCard], presented with the number, the CVV and the
    expiry date of the card, answers "Card not found or inactive". *)
Theorem created_card_refused (env : Env) (inp : CardRoutes.Inputs)
  (cs cs' : list VirtualCard.t) (card : VirtualCard.t) (cardNumber cvv : string) :
  (forall k, (0 <= CardRoutes.number_draws inp k)%Q /\ (CardRoutes.number_draws inp k < 1)%Q) ->
  (forall k, (0 <= CardRoutes.cvv_draws inp k)%Q /\ (CardRoutes.cvv_draws inp k < 1)%Q) ->
  (0 <= CardRoutes.year_draw inp)%Q /\ (CardRoutes.year_draw inp < 1)%Q ->
  (0 <= CardRoutes.month_draw inp)%Q /\ (CardRoutes.month_draw inp < 1)%Q ->
  (forall s, decryptData env (CardRoutes.encryptData inp s) = s) ->
  0 < getFullYear (now env) ->
  CardRoutes.createCard env inp cs = Some (cs', card, cardNumber, cvv) ->
  In card cs' /\
  VirtualCard.status_of card = VirtualCard.active /\
  VirtualCard.card_number_hash card = sha256 env cardNumber /\
  decryptData env (VirtualCard.cvv card) = cvv /\
  VirtualCard.isExpired (now env) card = false /\
  CardService.validateCard env cs' cardNumber cvv
    (VirtualCard.expiry_month card) (VirtualCard.expiry_year card) =
  inl "Card not found or inactive".
Proof.
  intros Hn Hc [Hy0 Hy1] [Hm0 Hm1] Hdec Hnow. unfold CardRoutes.createCard.
  pose proof (generateCardNumber_facts (sha256 env) cs _ Hn) as Hnum.
  destruct (VirtualCardStatics.generateCardNumber _ _ _) as [n|]; [|discriminate].
  destruct Hnum as (Hlen & _).
  pose proof (generateCvv_facts (CardRoutes.cvv_fuel inp) _ Hc) as Hcvv.
  destruct (VirtualCardStatics.generateCvv _ _) as [v|]; [|discriminate].
  destruct Hcvv as (i & _ & _ & _ & Hvlen & _).
  destruct (VirtualCardStatics.generateExpiryDate (now env) (CardRoutes.year_draw inp)
              (CardRoutes.month_draw inp)) as [month year] eqn:He.
  intros [= <- <- <- <-].
  match goal with
  | |- context [app cs (cons ?c nil)] => set (card := c)
  end.
  destruct (generateExpiryDate_facts (now env) _ _ card Hy0 Hy1 Hm0 Hm1 (eq_sym He))
    as (Hmonth & Hyear & Hexp).
  change (VirtualCard.expiry_month card) with month in *.
  change (VirtualCard.expiry_year card) with year in *.
  split; [apply in_or_app; right; left; reflexivity|].
  split; [reflexivity|]. split; [reflexivity|].
  split; [apply Hdec|]. split; [apply Hexp; lia|].
  apply validateCard_lookup; [exact Hlen|exact Hvlen|lia|lia|lia].
Qed.

Lemma created_card_refused_witness :
  let env := Sample.env_at Sample.day1 Sample.accepting Sample.no_fault in
  let inp := CardRoutes.mkInputs
               (fun k : nat => if Nat.eqb k 8 then (6 # 10)%Q else 0%Q)
               (fun k : nat => match k with O => (1 # 75)%Q | _ => (1 # 3)%Q end)
               5 (1 # 2) (11 # 12) (fun s => "enc:" +:+ s) 1 (of_Z 70000) (of_Z 1000000) in
  exists cs' card,
    CardRoutes.createCard env inp [] = Some (cs', card, "4000010000000068", "112") /\
    CardService.validateCard env cs' "4000010000000068" "112" 12 2026 =
    inl "Card not found or inactive".
Proof.
  cbv zeta. eexists. eexists.
  assert (E : CardRoutes.createCard
                (Sample.env_at Sample.day1 Sample.accepting Sample.no_fault)
                (CardRoutes.mkInputs
                   (fun k : nat => if Nat.eqb k 8 then (6 # 10)%Q else 0%Q)
                   (fun k : nat => match k with O => (1 # 75)%Q | _ => (1 # 3)%Q end)
                   5 (1 # 2) (11 # 12) (fun s => "enc:" +:+ s) 1 (of_Z 70000)
                   (of_Z 1000000)) [] =
              Some ([VirtualCard.mk 1 1 "enc:4000010000000068" "hash:4000010000000068"
                       12 2026 "enc:112" VirtualCard.active (of_Z 70000) (of_Z 1000000)
                       (of_Z 0) (of_Z 0) None],
                    VirtualCard.mk 1 1 "enc:4000010000000068" "hash:4000010000000068"
                      12 2026 "enc:112" VirtualCard.active (of_Z 70000) (of_Z 1000000)
                      (of_Z 0) (of_Z 0) None, "4000010000000068", "112"))
    by (vm_compute; reflexivity).
  split; [exact E|].
  refine (proj2 (proj2 (proj2 (proj2 (proj2
            (created_card_refused _ _ _ _ _ _ _ _ _ _ _ _ _ E)))))).
  - intros k. cbn. destruct (Nat.eqb k 8); split; lra.
  - intros [|k]; cbn; split; lra.
  - cbn. split; lra.
  - cbn. split; lra.
  - intros s. unfold Sample.env_at. cbn [decryptData CardRoutes.encryptData].
    rewrite length_append. change (String.length "enc:") with 4%nat.
    replace (4 + String.length s - 4)%nat with (String.length s) by lia.
    apply (substring_after "enc:" s).
  - cbn. lia.
Defined.
